(** * jina-ai-mcp: the Markdown resource cache of [server.py]

    A shallow embedding of [src/jina-mcp/server.py] and the properties of its
    resource cache: identifier normalisation, content fingerprints, change
    detection, the read / list operations and their error paths.

    Conventions.
    - A Python [str] is represented by the byte string of its UTF-8 encoding
      (Rocq's [string]).  Every character the program looks for ('/', '.',
      ':', '?', '#', ';', hexadecimal digits, ...) is ASCII, and UTF-8 never
      uses an ASCII byte inside a multi-byte sequence, so searching, trimming
      and replacing act on the bytes exactly as they act on the code points
      (an offset counts bytes, for the search that returns it and for the
      slice that takes it alike), and [content.encode("utf-8")] is the list
      of bytes of the string.
    - A Python [int] is a [Z].
    - An exception is a value of [PyError]; a call that may raise returns a
      [Result].
    - The process-wide dictionary [resource_store] is an association list in
      insertion order, threaded through the handlers in a state monad. *)

From Stdlib Require Import ZArith List String Ascii Bool Lia.
Import ListNotations.
Local Open Scope string_scope.
Local Open Scope Z_scope.

(* ===================================================================== *)
(** * Python string primitives used by the program and by [urllib.parse] *)
(* ===================================================================== *)

Module Py.

(** [len(s)] *)
Definition len (s : string) : Z := Z.of_nat (String.length s).

(** [c in s] for a one-character [c]. *)
Fixpoint contains (c : ascii) (s : string) : bool :=
  match s with
  | EmptyString => false
  | String a s' => if Ascii.eqb a c then true else contains c s'
  end.

Fixpoint take (n : nat) (s : string) : string :=
  match n, s with
  | O, _ => EmptyString
  | S _, EmptyString => EmptyString
  | S n', String a s' => String a (take n' s')
  end.

Fixpoint drop (n : nat) (s : string) : string :=
  match n, s with
  | O, _ => s
  | S _, EmptyString => EmptyString
  | S n', String _ s' => drop n' s'
  end.

(** Offset of the first occurrence of [c], if any. *)
Fixpoint index_of (c : ascii) (s : string) : option nat :=
  match s with
  | EmptyString => None
  | String a s' =>
      if Ascii.eqb a c then Some O
      else match index_of c s' with
           | Some k => Some (S k)
           | None => None
           end
  end.

(** Offset of the last occurrence of [c], if any. *)
Fixpoint rindex_of (c : ascii) (s : string) : option nat :=
  match s with
  | EmptyString => None
  | String a s' =>
      match rindex_of c s' with
      | Some k => Some (S k)
      | None => if Ascii.eqb a c then Some O else None
      end
  end.

(** How Python turns a slice bound into an offset: a negative bound counts
    from the end, and the result is clipped to [0 .. len(s)]. *)
Definition clamp (s : string) (i : Z) : nat :=
  Z.to_nat (if i <? 0 then Z.max 0 (len s + i) else Z.min i (len s)).

(** [s[a:b]] *)
Definition slice (s : string) (a b : Z) : string :=
  take (clamp s b - clamp s a) (drop (clamp s a) s).

(** [s[:b]] *)
Definition slice_to (s : string) (b : Z) : string := take (clamp s b) s.

(** [s[a:]] *)
Definition slice_from (s : string) (a : Z) : string := drop (clamp s a) s.

(** [s.find(c, start)]: the lowest index at or after [start], or [-1]. *)
Definition find (c : ascii) (s : string) (start : Z) : Z :=
  match index_of c (drop (clamp s start) s) with
  | Some k => Z.of_nat (clamp s start + k)
  | None => -1
  end.

(** [s.rfind(c)] *)
Definition rfind (c : ascii) (s : string) : Z :=
  match rindex_of c s with
  | Some k => Z.of_nat k
  | None => -1
  end.

(** [s.replace(old, new)] for a one-character [old]. *)
Fixpoint replace (old : ascii) (new : string) (s : string) : string :=
  match s with
  | EmptyString => EmptyString
  | String a s' =>
      if Ascii.eqb a old then new ++ replace old new s'
      else String a (replace old new s')
  end.

(** [s.lstrip(chars)] *)
Fixpoint lstrip (chars : string) (s : string) : string :=
  match s with
  | EmptyString => EmptyString
  | String a s' => if contains a chars then lstrip chars s' else s
  end.

(** [s.rstrip(chars)] *)
Fixpoint rstrip (chars : string) (s : string) : string :=
  match s with
  | EmptyString => EmptyString
  | String a s' =>
      match rstrip chars s' with
      | EmptyString => if contains a chars then EmptyString else String a EmptyString
      | r => String a r
      end
  end.

(** [s.split(c, 1)] when [c in s]: the text before and after the first [c]. *)
Definition split1 (c : ascii) (s : string) : string * string :=
  match index_of c s with
  | Some k => (take k s, drop (S k) s)
  | None => (s, EmptyString)
  end.

(** [s.partition(c)]: before, whether the separator was found, after. *)
Definition partition (c : ascii) (s : string) : string * bool * string :=
  match index_of c s with
  | Some k => (take k s, true, drop (S k) s)
  | None => (s, false, EmptyString)
  end.

(** [s.isascii()] *)
Fixpoint isascii (s : string) : bool :=
  match s with
  | EmptyString => true
  | String a s' => (N_of_ascii a <? 128)%N && isascii s'
  end.

Definition is_upper (a : ascii) : bool :=
  ((65 <=? N_of_ascii a) && (N_of_ascii a <=? 90))%N.
Definition is_lower (a : ascii) : bool :=
  ((97 <=? N_of_ascii a) && (N_of_ascii a <=? 122))%N.
Definition is_digit (a : ascii) : bool :=
  ((48 <=? N_of_ascii a) && (N_of_ascii a <=? 57))%N.

(** [c.isascii() and c.isalpha()] *)
Definition is_ascii_alpha (a : ascii) : bool := is_upper a || is_lower a.

Definition lower_char (a : ascii) : ascii :=
  if is_upper a then ascii_of_N (N_of_ascii a + 32) else a.

(** [s.lower()], on the ASCII strings it is applied to here. *)
Fixpoint lower (s : string) : string :=
  match s with
  | EmptyString => EmptyString
  | String a s' => String (lower_char a) (lower s')
  end.

(** [all(p(c) for c in s)] *)
Fixpoint forallb_str (p : ascii -> bool) (s : string) : bool :=
  match s with
  | EmptyString => true
  | String a s' => p a && forallb_str p s'
  end.

Definition digit_char (d : Z) : ascii := ascii_of_N (48 + Z.to_N d).

(** Decimal digits of a positive number, most significant first.  The fuel
    bounds the number of digits; [Pos.size_nat] (the number of bits) is
    always enough. *)
Fixpoint digits_fuel (fuel : nat) (n : Z) (acc : string) : string :=
  match fuel with
  | O => acc
  | S f =>
      let acc' := String (digit_char (n mod 10)) acc in
      if n / 10 =? 0 then acc' else digits_fuel f (n / 10) acc'
  end.

(** [str(n)] for an [int]: what an f-string writes for [{n}]. *)
Definition str_of_int (n : Z) : string :=
  match n with
  | Z0 => "0"
  | Zpos p => digits_fuel (Pos.size_nat p) n EmptyString
  | Zneg p => String "-" (digits_fuel (Pos.size_nat p) (Zpos p) EmptyString)
  end.

(** [f"{n:0{w}d}"] for a non-negative [n]: decimal, left-padded with zeros to
    width [w]. *)
Fixpoint zeros (k : nat) : string :=
  match k with
  | O => EmptyString
  | S k' => String "0" (zeros k')
  end.

Definition zero_pad (w : nat) (n : Z) : string :=
  let d := str_of_int n in
  zeros (w - String.length d) ++ d.

End Py.


(* ===================================================================== *)
(** * SHA-256 (FIPS 180-4), as [hashlib.sha256] computes it               *)
(* ===================================================================== *)

Module Sha256.

(** Words are numbers below [2^32]; additions wrap around. *)
Definition add32 (x y : Z) : Z := (x + y) mod 2 ^ 32.

Definition rotr (n x : Z) : Z :=
  Z.lor (Z.shiftr x n) (Z.shiftl x (32 - n) mod 2 ^ 32).

Definition shr (n x : Z) : Z := Z.shiftr x n.

Definition not32 (x : Z) : Z := Z.lxor x 0xffffffff.

Definition Ch (x y z : Z) : Z := Z.lxor (Z.land x y) (Z.land (not32 x) z).

Definition Maj (x y z : Z) : Z :=
  Z.lxor (Z.lxor (Z.land x y) (Z.land x z)) (Z.land y z).

Definition Sigma0 (x : Z) : Z := Z.lxor (Z.lxor (rotr 2 x) (rotr 13 x)) (rotr 22 x).
Definition Sigma1 (x : Z) : Z := Z.lxor (Z.lxor (rotr 6 x) (rotr 11 x)) (rotr 25 x).
Definition sigma0 (x : Z) : Z := Z.lxor (Z.lxor (rotr 7 x) (rotr 18 x)) (shr 3 x).
Definition sigma1 (x : Z) : Z := Z.lxor (Z.lxor (rotr 17 x) (rotr 19 x)) (shr 10 x).

(** The prime numbers below [n]. *)
Definition is_prime (p : nat) : bool :=
  forallb (fun d => negb (Nat.eqb (p mod d) 0)) (seq 2 (p - 2)).

Definition primes_below (n : nat) : list Z :=
  map Z.of_nat (filter is_prime (seq 2 (n - 2))).

(** The integer cube root of [n], bit by bit from bit [b] down. *)
Fixpoint cube_root_bits (b : nat) (n r : Z) : Z :=
  match b with
  | O => r
  | S b' =>
      let r' := r + 2 ^ Z.of_nat b' in
      cube_root_bits b' n (if r' * r' * r' <=? n then r' else r)
  end.

(** The first 32 bits of the fractional part of the cube root of [p]. *)
Definition cube_root_fraction (p : Z) : Z :=
  cube_root_bits 36 (p * 2 ^ 96) 0 mod 2 ^ 32.

(** The first 32 bits of the fractional part of the square root of [p]. *)
Definition square_root_fraction (p : Z) : Z :=
  Z.sqrt (p * 2 ^ 64) mod 2 ^ 32.

(** The round constants: one for each of the first 64 primes (2 to 311). *)
Definition K : list Z :=
  Eval vm_compute in map cube_root_fraction (primes_below 312).

(** The initial hash value: one word for each of the first 8 primes. *)
Definition H0 : list Z :=
  Eval vm_compute in map square_root_fraction (primes_below 20).

(** The big-endian bytes of [x], [n] of them. *)
Fixpoint be_bytes (n : nat) (x : Z) : list Z :=
  match n with
  | O => []
  | S n' => (Z.shiftr x (8 * Z.of_nat n')) mod 256 :: be_bytes n' x
  end.

(** Padding: a 1 bit, zeros up to 56 modulo 64 bytes, then the length of the
    message in bits on 64 bits. *)
Definition pad (msg : list Z) : list Z :=
  let l := Z.of_nat (List.length msg) in
  msg ++ [0x80] ++ repeat 0 (Z.to_nat ((55 - l) mod 64)) ++ be_bytes 8 (8 * l).

(** Big-endian words of a list of bytes. *)
Fixpoint words_of_bytes (n : nat) (bs : list Z) : list Z :=
  match n with
  | O => []
  | S n' =>
      match bs with
      | b0 :: b1 :: b2 :: b3 :: rest =>
          (b0 * 2 ^ 24 + b1 * 2 ^ 16 + b2 * 2 ^ 8 + b3) :: words_of_bytes n' rest
      | _ => []
      end
  end.

(** The message schedule, most recent word first: [extend k w] adds [k]
    words to [w]. *)
Fixpoint extend (k : nat) (w : list Z) : list Z :=
  match k with
  | O => w
  | S k' =>
      let wt := add32 (add32 (add32 (sigma1 (nth 1 w 0)) (nth 6 w 0))
                             (sigma0 (nth 14 w 0))) (nth 15 w 0) in
      extend k' (wt :: w)
  end.

Definition schedule (block : list Z) : list Z :=
  rev (extend 48 (rev (words_of_bytes 16 block))).

Record regs := Regs { ra : Z; rb : Z; rc : Z; rd : Z; re : Z; rf : Z; rg : Z; rh : Z }.

Definition round (s : regs) (kw : Z * Z) : regs :=
  let '(k, w) := kw in
  let t1 := add32 (add32 (add32 (add32 (rh s) (Sigma1 (re s)))
                                (Ch (re s) (rf s) (rg s))) k) w in
  let t2 := add32 (Sigma0 (ra s)) (Maj (ra s) (rb s) (rc s)) in
  Regs (add32 t1 t2) (ra s) (rb s) (rc s) (add32 (rd s) t1) (re s) (rf s) (rg s).

Definition regs_of (h : list Z) : regs :=
  Regs (nth 0 h 0) (nth 1 h 0) (nth 2 h 0) (nth 3 h 0)
       (nth 4 h 0) (nth 5 h 0) (nth 6 h 0) (nth 7 h 0).

(** One block: 64 rounds, then the working registers are added to the
    chaining value. *)
Definition compress (h : list Z) (block : list Z) : list Z :=
  let s0 := regs_of h in
  let s := fold_left round (combine K (schedule block)) s0 in
  [ add32 (ra s0) (ra s); add32 (rb s0) (rb s); add32 (rc s0) (rc s);
    add32 (rd s0) (rd s); add32 (re s0) (re s); add32 (rf s0) (rf s);
    add32 (rg s0) (rg s); add32 (rh s0) (rh s) ].

(** The eight words of the hash of a message given as bytes. *)
Definition hash_words (msg : list Z) : list Z :=
  let p := pad msg in
  fold_left (fun h i => compress h (firstn 64 (skipn (64 * i) p)))
            (seq 0 (List.length p / 64)) H0.

(** [hashlib.sha256(msg).digest()]: 32 bytes. *)
Definition digest (msg : list Z) : list Z :=
  flat_map (be_bytes 4) (hash_words msg).

Definition hex_digit (d : Z) : ascii :=
  if d <? 10 then ascii_of_N (48 + Z.to_N d) else ascii_of_N (87 + Z.to_N d).

Definition hex_byte (b : Z) : string :=
  String (hex_digit (b / 16)) (String (hex_digit (b mod 16)) EmptyString).

(** [bytes.hex()]: two lowercase hexadecimal digits per byte. *)
Fixpoint hex (bs : list Z) : string :=
  match bs with
  | [] => EmptyString
  | b :: bs' => hex_byte b ++ hex bs'
  end.

(** [hashlib.sha256(msg).hexdigest()] *)
Definition hexdigest (msg : list Z) : string := hex (digest msg).

End Sha256.

(** [s.encode("utf-8")]: the bytes of the string. *)
Definition encode_utf8 (s : string) : list Z :=
  map (fun a => Z.of_N (N_of_ascii a)) (list_ascii_of_string s).

(* ===================================================================== *)
(** * Exceptions, results and the libraries the program calls            *)
(* ===================================================================== *)

(** The exceptions that can leave the program's functions. *)
Inductive PyError : Type :=
| ValueError (msg : string)
| KeyError (msg : string)
| ValidationError (msg : string)   (* pydantic: a value is not a valid model field *)
| HTTPStatusError (status : Z)     (* httpx: [raise_for_status] on a non-2xx response *)
| RequestError (what : string)     (* whatever [client.get] raises, named by [what]:
                                     httpx.ConnectError, httpx.ReadTimeout,
                                     httpx.TooManyRedirects, httpx.InvalidURL, ... *)
| LibraryError (what : string).    (* anything else a library call raises *)

Inductive Result (A : Type) : Type :=
| Ok (a : A)
| Raise (e : PyError).
Arguments Ok {A} a.
Arguments Raise {A} e.

Definition bindR {A B : Type} (c : Result A) (k : A -> Result B) : Result B :=
  match c with
  | Ok a => k a
  | Raise e => Raise e
  end.

Declare Scope result_scope.
Delimit Scope result_scope with result.
Notation "x <- c ;; k" := (bindR c (fun x => k))
  (at level 61, c at next level, right associativity) : result_scope.
Notation "c ;; k" := (bindR c (fun _ => k))
  (at level 61, right associativity) : result_scope.

(** [[f(x) for x in l]] where [f] may raise: the first exception ends the
    comprehension. *)
Fixpoint mapR {A B : Type} (f : A -> Result B) (l : list A) : Result (list B) :=
  match l with
  | [] => Ok []
  | x :: l' =>
      match f x with
      | Ok y =>
          match mapR f l' with
          | Ok ys => Ok (y :: ys)
          | Raise e => Raise e
          end
      | Raise e => Raise e
      end
  end.

(** A validated [pydantic.AnyUrl] value, through the two observations the
    program makes of it: [uri.scheme] and [str(uri)]. *)
Module AnyUrl.
Record t : Type := Make { scheme : string; str : string }.
End AnyUrl.

(** The library calls whose code is outside the repository and that are not
    modelled here: the tokenizer ([tiktoken]), URL validation ([pydantic])
    and the two netloc validations of [urllib.parse] that depend on
    [ipaddress], [re] and [unicodedata].  Each returns what the call returns
    or the exception it raises. *)
Class Libraries : Type := {
  Encoding : Type;
  (** [tiktoken.encoding_for_model(model)]; raises [KeyError] for a model it
      does not know. *)
  encoding_for_model : string -> Result Encoding;
  (** [tiktoken.get_encoding(name)] *)
  get_encoding : string -> Result Encoding;
  (** [enc.encode(text)]: the token ids. *)
  encode : Encoding -> string -> Result (list Z);
  (** [AnyUrl(s)]: validation of a string as a URL. *)
  AnyUrl_validate : string -> Result AnyUrl.t;
  (** [urllib.parse._check_bracketed_netloc(netloc)] *)
  check_bracketed_netloc : string -> Result unit;
  (** The part of [urllib.parse._checknetloc(netloc)] that runs on a netloc
      that is neither empty nor ASCII: the NFKC check. *)
  checknetloc_nfkc : string -> Result unit
}.

(** An instance to run the model on concrete inputs: one token per byte,
    every string with a scheme before [":"] is a URL and is kept as it is,
    and the netloc validations accept. *)
Definition toy_AnyUrl_validate (s : string) : Result AnyUrl.t :=
  if Py.contains ":" s
  then Ok (AnyUrl.Make (Py.lower (fst (Py.split1 ":" s))) s)
  else Raise (ValidationError "Input should be a valid URL").

Definition toy_libraries : Libraries := {|
  Encoding := unit;
  encoding_for_model := fun model =>
    if String.eqb model "gpt-4" then Ok tt else Raise (KeyError model);
  get_encoding := fun _ => Ok tt;
  encode := fun _ text => Ok (encode_utf8 text);
  AnyUrl_validate := toy_AnyUrl_validate;
  check_bracketed_netloc := fun _ => Ok tt;
  checknetloc_nfkc := fun _ => Ok tt
|}.

(* ===================================================================== *)
(** * [urllib.parse.urlparse] (CPython 3.11), for [str] arguments and the
      default [scheme=''] and [allow_fragments=True]                      *)
(* ===================================================================== *)

Module Urllib.

Definition uses_params : list string :=
  [ ""; "ftp"; "hdl"; "prospero"; "http"; "imap";
    "https"; "shttp"; "rtsp"; "rtspu"; "sip"; "sips";
    "mms"; "sftp"; "tel" ].

Definition scheme_chars : string :=
  "abcdefghijklmnopqrstuvwxyzABCDEFGHIJKLMNOPQRSTUVWXYZ0123456789+-.".

(** [_WHATWG_C0_CONTROL_OR_SPACE]: the characters 0 to 32. *)
Definition C0_CONTROL_OR_SPACE : string :=
  string_of_list_ascii (map (fun n => ascii_of_nat n) (seq 0 33)).

(** [_UNSAFE_URL_BYTES_TO_REMOVE]: tab, carriage return, line feed. *)
Definition UNSAFE_URL_BYTES_TO_REMOVE : list ascii :=
  [ ascii_of_nat 9; ascii_of_nat 13; ascii_of_nat 10 ].

Record SplitResult : Type := MkSplit {
  s_scheme : string; s_netloc : string; s_path : string;
  s_query : string; s_fragment : string }.

Record ParseResult : Type := MkParse {
  scheme : string; netloc : string; path : string;
  params : string; query : string; fragment : string }.

(** [_splitnetloc(url, start)] *)
Definition splitnetloc (url : string) (start : Z) : string * string :=
  let delim :=
    fold_left
      (fun delim c =>
         let wdelim := Py.find c url start in
         if wdelim >=? 0 then Z.min delim wdelim else delim)
      [ "/"%char; "?"%char; "#"%char ] (Py.len url) in
  (Py.slice url start delim, Py.slice_from url delim).

(** [_splitparams(url)] *)
Definition splitparams (url : string) : string * string :=
  if Py.contains "/" url then
    let i := Py.find ";" url (Py.rfind "/" url) in
    if i <? 0 then (url, "")
    else (Py.slice_to url i, Py.slice_from url (i + 1))
  else
    let i := Py.find ";" url 0 in
    (Py.slice_to url i, Py.slice_from url (i + 1)).

(** [_checknetloc(netloc)] *)
Definition checknetloc `{Libraries} (netloc : string) : Result unit :=
  if String.eqb netloc "" || Py.isascii netloc then Ok tt
  else checknetloc_nfkc netloc.

(** The scheme, when the text before the first [":"] is one. *)
Definition split_scheme (url : string) : string * string :=
  let i := Py.find ":" url 0 in
  if (i >? 0)
     && match url with String a _ => Py.is_ascii_alpha a | EmptyString => false end
     && Py.forallb_str (fun c => Py.contains c scheme_chars) (Py.slice_to url i)
  then (Py.lower (Py.slice_to url i), Py.slice_from url (i + 1))
  else ("", url).

(** The netloc, when the rest starts with ["//"], with its bracket checks. *)
Definition split_authority `{Libraries} (url : string) : Result (string * string) :=
  if String.eqb (Py.slice_to url 2) "//" then
    let '(netloc, url') := splitnetloc url 2 in
    if (Py.contains "[" netloc && negb (Py.contains "]" netloc))
       || (Py.contains "]" netloc && negb (Py.contains "[" netloc))
    then Raise (ValueError "Invalid IPv6 URL")
    else
      ((if Py.contains "[" netloc && Py.contains "]" netloc
        then check_bracketed_netloc netloc else Ok tt) ;;
       Ok (netloc, url'))%result
  else Ok ("", url).

(** [urlsplit(url)] *)
Definition urlsplit `{Libraries} (url : string) : Result SplitResult :=
  let url := Py.lstrip C0_CONTROL_OR_SPACE url in
  let url := fold_left (fun u b => Py.replace b "" u) UNSAFE_URL_BYTES_TO_REMOVE url in
  let '(scheme, url) := split_scheme url in
  (r <- split_authority url ;;
   let '(netloc, url) := r in
   let '(url, fragment) :=
     if Py.contains "#" url then Py.split1 "#" url else (url, "") in
   let '(url, query) :=
     if Py.contains "?" url then Py.split1 "?" url else (url, "") in
   checknetloc netloc ;;
   Ok (MkSplit scheme netloc url query fragment))%result.

(** [urlparse(url)] *)
Definition urlparse `{Libraries} (url : string) : Result ParseResult :=
  (splitresult <- urlsplit url ;;
   let '(MkSplit scheme netloc url query fragment) := splitresult in
   let '(url, params) :=
     if existsb (String.eqb scheme) uses_params && Py.contains ";" url
     then splitparams url else (url, "") in
   Ok (MkParse scheme netloc url params query fragment))%result.

End Urllib.

(* ===================================================================== *)
(** * The data of [server.py]                                             *)
(* ===================================================================== *)

(** A naive [datetime.datetime], as [datetime.utcnow()] returns it. *)
Module Datetime.
Record t : Type := Make {
  year : Z; month : Z; day : Z;
  hour : Z; minute : Z; second : Z; microsecond : Z }.

(** [d.isoformat()]: [YYYY-MM-DDTHH:MM:SS], followed by [.ffffff] when the
    microsecond is not zero. *)
Definition isoformat (d : t) : string :=
  Py.zero_pad 4 (year d) ++ "-" ++ Py.zero_pad 2 (month d) ++ "-"
  ++ Py.zero_pad 2 (day d) ++ "T" ++ Py.zero_pad 2 (hour d) ++ ":"
  ++ Py.zero_pad 2 (minute d) ++ ":" ++ Py.zero_pad 2 (second d)
  ++ (if microsecond d =? 0 then "" else "." ++ Py.zero_pad 6 (microsecond d)).
End Datetime.

(** [@dataclass class MarkdownResource] *)
Module MarkdownResource.
Record t : Type := Make {
  markdown : string;
  token_count : Z;
  content_hash : string;
  fetched_at : Datetime.t }.
End MarkdownResource.

(** [@dataclass class MarkdownMeta] *)
Module MarkdownMeta.
Record t : Type := Make {
  url : string;
  uri : string;
  token_count : Z;
  content_hash : string;
  fetched_at : string;
  has_changed : bool }.
End MarkdownMeta.

(** [types.TextContent(type=..., text=..., _meta=asdict(meta))] *)
Module TextContent.
Record t : Type := Make { type : string; text : string; meta : MarkdownMeta.t }.
End TextContent.

(** [types.Resource(uri=..., name=..., description=..., mimeType=...)] *)
Module Resource.
Record t : Type := Make {
  uri : AnyUrl.t; name : string; description : string; mimeType : string }.
End Resource.

(** A JSON value, as the arguments of a tool call carry them. *)
#[warnings="-register-all"]
Inductive Json : Type :=
| JNull
| JBool (b : bool)
| JNumber (n : Z)
| JString (s : string)
| JArray (items : list Json)
| JObject (members : list (string * Json)).

(** A Python [dict] with [str] keys: the items in insertion order.  The
    dictionaries the program builds have one item per key
    (see [dict_set]). *)
Definition Dict (V : Type) : Type := list (string * V).

(** [d.get(k)] *)
Fixpoint dict_get {V : Type} (k : string) (d : Dict V) : option V :=
  match d with
  | [] => None
  | (k', v) :: d' => if String.eqb k' k then Some v else dict_get k d'
  end.

(** [k in d] *)
Definition dict_contains {V : Type} (k : string) (d : Dict V) : bool :=
  match dict_get k d with
  | Some _ => true
  | None => false
  end.

(** [d[k]] *)
Definition dict_getitem {V : Type} (k : string) (d : Dict V) : Result V :=
  match dict_get k d with
  | Some v => Ok v
  | None => Raise (KeyError k)
  end.

(** [d[k] = v]: the value of an existing key is replaced where it is, a new
    key is added at the end. *)
Fixpoint dict_set {V : Type} (k : string) (v : V) (d : Dict V) : Dict V :=
  match d with
  | [] => [(k, v)]
  | (k', v') :: d' =>
      if String.eqb k' k then (k', v) :: d' else (k', v') :: dict_set k v d'
  end.

(** [d.keys()] *)
Definition dict_keys {V : Type} (d : Dict V) : list string := map fst d.

(** What one call [client.get(url, follow_redirects=True)] yields: the final
    response, after httpx has followed every redirect, or the exception the
    call raises, named by [what].  The exception may come before anything is
    sent (httpx.InvalidURL) or from any of the requests httpx issues. *)
Inductive HttpOutcome : Type :=
| Response (status_code : Z) (text : string)
| RequestFailed (what : string).

(** The outside world during one handler call: what a call of [client.get]
    on each URL yields, and the clock.  How many requests httpx sends for one
    call, and to which hosts, is inside [http_get]: the program does not see
    it, and the model does not record it. *)
Record World : Type := MkWorld {
  http_get : string -> HttpOutcome;
  utcnow : Datetime.t }.

(** The state of the process: the module-level [resource_store] and, to tell
    whether a handler reached [client.get], the URLs the program has passed
    to it so far (most recent first).  [outbound] logs the calls the program
    makes, not the requests httpx sends: with [follow_redirects=True] one call
    may send several requests, to the redirect targets as well, and a call
    that raises before sending sends none. *)
Record State : Type := MkState {
  resource_store : Dict MarkdownResource.t;
  outbound : list string }.

(** [resource_store: Dict[str, MarkdownResource] = {}] *)
Definition initial_state : State := MkState [] [].

(** Handlers run in the world, on the state, and return or raise. *)
Definition M (A : Type) : Type := World -> State -> Result A * State.

Definition ret {A : Type} (a : A) : M A := fun _ st => (Ok a, st).

Definition raise {A : Type} (e : PyError) : M A := fun _ st => (Raise e, st).

Definition bindM {A B : Type} (c : M A) (k : A -> M B) : M B :=
  fun w st =>
    match c w st with
    | (Ok a, st') => k a w st'
    | (Raise e, st') => (Raise e, st')
    end.

Definition lift {A : Type} (r : Result A) : M A := fun _ st => (r, st).

Definition get_store : M (Dict MarkdownResource.t) :=
  fun _ st => (Ok (resource_store st), st).

Definition put_store (d : Dict MarkdownResource.t) : M unit :=
  fun _ st => (Ok tt, MkState d (outbound st)).

Definition now : M Datetime.t := fun w st => (Ok (utcnow w), st).

(** [await client.get(url, follow_redirects=True)]: the call is logged, and
    the world gives its outcome. *)
Definition client_get (url : string) : M HttpOutcome :=
  fun w st => (Ok (http_get w url), MkState (resource_store st) (url :: outbound st)).

Declare Scope handler_scope.
Delimit Scope handler_scope with handler.
Notation "x <- c ;; k" := (bindM c (fun x => k))
  (at level 61, c at next level, right associativity) : handler_scope.
Notation "c ;; k" := (bindM c (fun _ => k))
  (at level 61, right associativity) : handler_scope.

(* ===================================================================== *)
(** * The functions of [server.py]                                        *)
(* ===================================================================== *)

(** [x or y] on strings. *)
Definition str_or (x y : string) : string :=
  match x with
  | EmptyString => y
  | _ => x
  end.

(** [normalize_uri] *)
Definition normalize_uri `{Libraries} (url : string) : Result string :=
  (parsed <- Urllib.urlparse url ;;
   let safe_path := str_or (Py.rstrip "/" (Urllib.path parsed)) "_" in
   let safe_key :=
     Py.replace "." "_" (Py.replace "/" "_" (Urllib.netloc parsed ++ safe_path)) in
   Ok ("jinamd://" ++ safe_key))%result.

(** [compute_hash] *)
Definition compute_hash (content : string) : string :=
  Sha256.hexdigest (encode_utf8 content).

(** [estimate_tokens] *)
Definition estimate_tokens `{Libraries} (text : string) (model : string) : Result Z :=
  (enc <- match encoding_for_model model with
          | Raise (KeyError _) => get_encoding "cl100k_base"
          | r => r
          end ;;
   tokens <- encode enc text ;;
   Ok (Z.of_nat (List.length tokens)))%result.

(** [response.raise_for_status()]: any status outside 200..299 raises. *)
Definition raise_for_status (status_code : Z) : Result unit :=
  if (200 <=? status_code) && (status_code <=? 299) then Ok tt
  else Raise (HTTPStatusError status_code).

(** [f"https://r.jina.ai/{url}"]: the URL the Fetch Gateway requests. *)
Definition jina_url (url : string) : string := "https://r.jina.ai/" ++ url.

(** [fetch_jina_markdown] *)
Definition fetch_jina_markdown (url : string) : M string :=
  (response <- client_get (jina_url url) ;;
   match response with
   | Response status_code text =>
       lift (raise_for_status status_code) ;;
       ret text
   | RequestFailed what => raise (RequestError what)
   end)%handler.

(** [fetch_and_store_url] *)
Definition fetch_and_store_url `{Libraries} (url : string) : M (list TextContent.t) :=
  (markdown <- fetch_jina_markdown url ;;
   let content_hash := compute_hash markdown in
   token_count <- lift (estimate_tokens markdown "gpt-4") ;;
   now <- now ;;
   uri <- lift (normalize_uri url) ;;
   store <- get_store ;;
   let old := dict_get uri store in
   let has_changed :=
     match old with
     | Some old => negb (String.eqb (MarkdownResource.content_hash old) content_hash)
     | None => true
     end in
   store <- get_store ;;
   put_store (dict_set uri (MarkdownResource.Make markdown token_count content_hash now) store) ;;
   let meta :=
     MarkdownMeta.Make url uri token_count content_hash (Datetime.isoformat now) has_changed in
   ret [ TextContent.Make "text" markdown meta ])%handler.

(** [URLRequest], built from the keyword arguments: the field [url] is
    required and must be a string that validates as a URL; other keys are
    ignored. *)
Definition URLRequest `{Libraries} (arguments : Dict Json) : Result AnyUrl.t :=
  match dict_get "url" arguments with
  | Some (JString s) => AnyUrl_validate s
  | Some _ => Raise (ValidationError "URL input should be a string or URL")
  | None => Raise (ValidationError "Field required")
  end.

(** [call_tool] *)
Definition call_tool `{Libraries} (name : string) (arguments : option (Dict Json))
  : M (list TextContent.t) :=
  match arguments with
  | None | Some [] => raise (ValueError "Missing arguments")
  | Some arguments =>
      if negb (String.eqb name "fetch_markdown")
      then raise (ValueError ("Unknown tool: " ++ name))
      else
        (args_url <- lift (URLRequest arguments) ;;
         fetch_and_store_url (AnyUrl.str args_url))%handler
  end.

(** [f"Jina Markdown: {uri}"] *)
Definition resource_name (uri : string) : string := "Jina Markdown: " ++ uri.

(** [f"Fetched at {res.fetched_at.isoformat()} UTC, ~{res.token_count} tokens"] *)
Definition resource_description (res : MarkdownResource.t) : string :=
  "Fetched at " ++ Datetime.isoformat (MarkdownResource.fetched_at res)
  ++ " UTC, ~" ++ Py.str_of_int (MarkdownResource.token_count res) ++ " tokens".

(** [list_resources] *)
Definition list_resources `{Libraries} : M (list Resource.t) :=
  (store <- get_store ;;
   lift (mapR (fun '(uri, res) =>
                 (u <- AnyUrl_validate uri ;;
                  Ok (Resource.Make u (resource_name uri) (resource_description res)
                        "text/markdown"))%result)
              store))%handler.

(** The line feed. *)
Definition nl : string := String (ascii_of_nat 10) EmptyString.

(** The footer [read_resource] appends. *)
Definition footer (res : MarkdownResource.t) : string :=
  nl ++ nl ++ "---" ++ nl
  ++ "_Estimated tokens_: " ++ Py.str_of_int (MarkdownResource.token_count res) ++ nl
  ++ "_Content hash_: `" ++ Py.slice_to (MarkdownResource.content_hash res) 12
  ++ "...`" ++ nl
  ++ "_Fetched at_: " ++ Datetime.isoformat (MarkdownResource.fetched_at res) ++ " UTC".

(** [read_resource] *)
Definition read_resource (uri : AnyUrl.t) : M string :=
  if negb (String.eqb (AnyUrl.scheme uri) "jinamd")
  then raise (ValueError ("Unsupported URI scheme: " ++ AnyUrl.scheme uri))
  else
    (store <- get_store ;;
     if negb (dict_contains (AnyUrl.str uri) store)
     then raise (ValueError ("Resource not found: " ++ AnyUrl.str uri))
     else
       store <- get_store ;;
       res <- lift (dict_getitem (AnyUrl.str uri) store) ;;
       ret (MarkdownResource.markdown res ++ footer res))%handler.

(* ===================================================================== *)
(** * Runs of the server                                                  *)
(* ===================================================================== *)

(** The calls that reach the resource cache: the three protocol handlers,
    and [fetch_and_store_url] itself (the cache's upsert). *)
Inductive Request : Type :=
| CallTool (name : string) (arguments : option (Dict Json))
| FetchAndStore (url : string)
| ListResources
| ReadResource (uri : AnyUrl.t).

(** The state a request leaves behind, whether it returns or raises. *)
Definition handle `{Libraries} (r : Request) (w : World) (st : State) : State :=
  match r with
  | CallTool name arguments => snd (call_tool name arguments w st)
  | FetchAndStore url => snd (fetch_and_store_url url w st)
  | ListResources => snd (list_resources w st)
  | ReadResource uri => snd (read_resource uri w st)
  end.

(** The states of the process: the empty store at start-up, and what any
    request in any world makes of a state. *)
Inductive reachable `{Libraries} : State -> Prop :=
| reachable_init : reachable initial_state
| reachable_step : forall st r w, reachable st -> reachable (handle r w st).

(** Lowercase hexadecimal digit. *)
Definition is_lower_hex (a : ascii) : bool :=
  Py.is_digit a || ((97 <=? N_of_ascii a) && (N_of_ascii a <=? 102))%N.

(* ===================================================================== *)
(** * The identifier algorithm as the specification words it (section 4.1) *)
(* ===================================================================== *)

Module SpecNormalizer.











End SpecNormalizer.


(** The length of the longest prefix without ['/'], ['?'] or ['#']: where the
    netloc ends in what follows ["//"]. *)
Fixpoint netloc_length (v : string) : nat :=
  match v with
  | EmptyString => O
  | String a v' =>
      if Ascii.eqb a "/" || Ascii.eqb a "?" || Ascii.eqb a "#" then O
      else S (netloc_length v')
  end.


(** Distinct texts to fetch, one for each positive number: its binary digits,
    least significant first. *)
Fixpoint text_of_pos (p : positive) : string :=
  match p with
  | xH => EmptyString
  | xO q => String "0" (text_of_pos q)
  | xI q => String "1" (text_of_pos q)
  end.

(** The hash words as one number, first word least significant. *)
Fixpoint number_of_words (ws : list Z) : Z :=
  match ws with
  | [] => 0
  | w :: ws' => w + 2 ^ 32 * number_of_words ws'
  end.

(** A chaining value: eight words below [2^32]. *)
Definition chaining (h : list Z) : Prop :=
  List.length h = 8%nat /\ Forall (fun w => 0 <= w < 2 ^ 32) h.

(** The resources [list_resources] reports for the identifier [uri]: those
    named after it. *)
Definition listed_for (uri : string) (rs : list Resource.t) : list Resource.t :=
  filter (fun r => String.eqb (Resource.name r) (resource_name uri)) rs.

(** Worlds and values for the examples. *)
Definition world_of (text : string) (t : Datetime.t) : World :=
  MkWorld (fun _ => Response 200 text) t.

Definition noon : Datetime.t := Datetime.Make 2025 3 9 12 0 0 0.
Definition later : Datetime.t := Datetime.Make 2025 3 9 12 0 5 250000.

(** The world in which the conversion service answers 503. *)
Definition world_down : World :=
  MkWorld (fun _ => Response 503 "Service Unavailable") later.

Definition docs_url : string := "https://example.com/docs/".
Definition docs_key : string := "jinamd://example_com_docs".
Definition docs_id : AnyUrl.t := AnyUrl.Make "jinamd" docs_key.

Definition hash_hi : string :=
  "38c64a17e33e98b7abb8edace0888dffe5918eea28fe4812281fa1ecc0664af4".

(** What a fetch of [docs_url] at time [t] returns when the text is
    ["# Hi"]. *)
Definition item_hi (t : Datetime.t) (has_changed : bool) : TextContent.t :=
  TextContent.Make "text" "# Hi"
    (MarkdownMeta.Make docs_url docs_key 4 hash_hi (Datetime.isoformat t) has_changed).

(** The entry stored by such a fetch. *)
Definition entry_hi (t : Datetime.t) : MarkdownResource.t :=
  MarkdownResource.Make "# Hi" 4 hash_hi t.

(** The state after a first fetch of [docs_url], and after a second one. *)
Definition state_docs : State :=
  MkState [(docs_key, entry_hi noon)] [jina_url docs_url].

Definition state_docs_later : State :=
  MkState [(docs_key, entry_hi later)] [jina_url docs_url; jina_url docs_url].

(** A scheme as [urlsplit] accepts one: an ASCII letter first, and only
    letters, digits, ['+'], ['-'] and ['.']. *)
Definition is_scheme (s : string) : bool :=
  match s with
  | EmptyString => false
  | String a _ =>
      Py.is_ascii_alpha a
      && Py.forallb_str (fun c => Py.contains c Urllib.scheme_chars) s
  end.

(** [scheme in uses_params] *)
Definition takes_params (scheme : string) : bool :=
  existsb (String.eqb scheme) Urllib.uses_params.

(** A run of the server: requests handled one after the other, each in the
    world of its time. *)
Fixpoint run `{Libraries} (rs : list (Request * World)) (st : State) : State :=
  match rs with
  | [] => st
  | (r, w) :: rs' => run rs' (handle r w st)
  end.

(** The entry a successful upsert stores, and the item it returns. *)
Definition stored_entry (markdown : string) (token_count : Z) (t : Datetime.t)
  : MarkdownResource.t :=
  MarkdownResource.Make markdown token_count (compute_hash markdown) t.

Definition returned_item (url uri markdown : string) (token_count : Z)
  (t : Datetime.t) (has_changed : bool) : TextContent.t :=
  TextContent.Make "text" markdown
    (MarkdownMeta.Make url uri token_count (compute_hash markdown)
       (Datetime.isoformat t) has_changed).

(** The world in which the request fails before any response. *)
Definition world_offline : World :=
  MkWorld (fun _ => RequestFailed "ConnectError") later.

(** A text the toy tokenizer refuses, as [enc.encode] refuses a text that
    holds a special token. *)
Definition picky_libraries : Libraries := {|
  Encoding := unit;
  encoding_for_model := fun model => Raise (KeyError model);
  get_encoding := fun _ => Ok tt;
  encode := fun _ text =>
    if String.eqb text "<|endoftext|>"
    then Raise (ValueError "disallowed special token")
    else Ok (encode_utf8 text);
  AnyUrl_validate := toy_AnyUrl_validate;
  check_bracketed_netloc := fun _ => Ok tt;
  checknetloc_nfkc := fun _ => Ok tt
|}.

(** What follows the first ["://"] of a string, when there is one. *)
Fixpoint after_scheme (s : string) : option string :=
  match s with
  | EmptyString => None
  | String c s' =>
      match c, s' with
      | ":"%char, String "/" (String "/" rest) => Some rest
      | _, _ => after_scheme s'
      end
  end.

(** A string up to the first ["/"], ["?"] or ["#"]. *)
Fixpoint until_delimiter (s : string) : string :=
  match s with
  | EmptyString => EmptyString
  | String c s' =>
      if Ascii.eqb c "/" || Ascii.eqb c "?" || Ascii.eqb c "#" then EmptyString
      else String c (until_delimiter s')
  end.

(** The port a URL gives: in the authority, between ["://"] and the first
    ["/"], ["?"] or ["#"], what follows the last [":"] that comes after the
    user information and after a bracketed address. *)
Definition port_of (s : string) : option string :=
  match after_scheme s with
  | None => None
  | Some rest =>
      let authority := until_delimiter rest in
      let hostport := Py.slice_from authority (Py.rfind "@" authority + 1) in
      let tail := Py.slice_from hostport (Py.rfind "]" hostport + 1) in
      if Py.contains ":" tail
      then Some (Py.slice_from tail (Py.rfind ":" tail + 1))
      else None
  end.

(** A validation that, like the URL parser behind [pydantic.AnyUrl], refuses
    a port that is not made of decimal digits; it applies this one rule of
    the parser and otherwise keeps the string as it is. *)
Definition port_checking_AnyUrl_validate (s : string) : Result AnyUrl.t :=
  match port_of s with
  | Some port =>
      if Py.forallb_str Py.is_digit port then toy_AnyUrl_validate s
      else Raise (ValidationError "invalid port number")
  | None => toy_AnyUrl_validate s
  end.

Definition port_checking_libraries : Libraries := {|
  Encoding := unit;
  encoding_for_model := fun model =>
    if String.eqb model "gpt-4" then Ok tt else Raise (KeyError model);
  get_encoding := fun _ => Ok tt;
  encode := fun _ text => Ok (encode_utf8 text);
  AnyUrl_validate := port_checking_AnyUrl_validate;
  check_bracketed_netloc := fun _ => Ok tt;
  checknetloc_nfkc := fun _ => Ok tt
|}.

(** A URL with a port, and the key [normalize_uri] gives it: the port is
    kept, and the path is glued to it. *)
Definition local_url : string := "http://localhost:8000/a.b/".
Definition local_key : string := "jinamd://localhost:8000_a_b".

(** The state after a first fetch of [local_url] returning ["# Hi"], and
    after a second one returning ["# Hi again"]. *)
Definition state_local : State :=
  MkState [(local_key, entry_hi noon)] [jina_url local_url].

Definition state_local_later : State :=
  MkState [(local_key, stored_entry "# Hi again" 10 later)]
    [jina_url local_url; jina_url local_url].

(** Hypotheses that are conjunctions or existentials, taken apart. *)
Ltac break_hyps :=
  repeat match goal with
         | H : _ /\ _ |- _ => destruct H
         | H : exists _, _ |- _ => destruct H
         end.

(* ===================================================================== *)
(** * The model on concrete inputs                                        *)
(* ===================================================================== *)

Section ModelChecks.
Context {L : Libraries}.

Example rstrip_slashes :
  Py.rstrip "/" "/docs//" = "/docs" /\ Py.rstrip "/" "///" = ""
  /\ Py.rstrip "/" "/a/b" = "/a/b".
Proof. repeat split. Qed.

Example slices_and_finds :
  Py.slice "abcdef" 2 (-1) = "cde" /\ Py.slice_to "abc" 12 = "abc"
  /\ Py.find "/" "//a/b" 2 = 3 /\ Py.find ";" "abc" 0 = -1
  /\ Py.rfind "/" "/a/b;c" = 2.
Proof. repeat split. Qed.

Example int_and_time_formats :
  Py.str_of_int 1234567890 = "1234567890" /\ Py.str_of_int (-45) = "-45"
  /\ Datetime.isoformat noon = "2025-03-09T12:00:00"
  /\ Datetime.isoformat later = "2025-03-09T12:00:05.250000".
Proof. repeat split. Qed.

Example urlparse_examples :
  Urllib.urlparse "https://example.com/docs/?a=1#top"
    = Ok (Urllib.MkParse "https" "example.com" "/docs/" "" "a=1" "top")
  /\ Urllib.urlparse "HTTP://user:pw@Example.com:80/a/b;p?x=1;2#frag?z"
      = Ok (Urllib.MkParse "http" "user:pw@Example.com:80" "/a/b" "p" "x=1;2" "frag?z")
  /\ Urllib.urlparse "example.com/a?b"
      = Ok (Urllib.MkParse "" "" "example.com/a" "" "b" "")
  /\ Urllib.urlparse "http://[::1/x" = Raise (ValueError "Invalid IPv6 URL").
Proof. repeat split. Qed.

Example normalize_uri_examples :
  normalize_uri "https://example.com" = Ok "jinamd://example_com_"
  /\ normalize_uri "https://example.com/" = Ok "jinamd://example_com_"
  /\ normalize_uri "http://localhost:8000/a.b/" = Ok "jinamd://localhost:8000_a_b"
  /\ normalize_uri "https://example.com/docs/index.html?x=1#top"
      = Ok "jinamd://example_com_docs_index_html".
Proof. repeat split. Qed.

End ModelChecks.

(** An unknown model name falls back to [cl100k_base]. *)
Example estimate_tokens_fallback :
  @estimate_tokens toy_libraries "# Hi" "gpt-4" = Ok 4
  /\ @estimate_tokens toy_libraries "# Hi" "no-such-model" = Ok 4.
Proof. repeat split. Qed.

(* ===================================================================== *)
(** * Dictionaries                                                        *)
(* ===================================================================== *)

Section DictFacts.
Context {V : Type}.
Implicit Types (d : Dict V) (k : string) (v : V).

Lemma dict_get_set_same d k v : dict_get k (dict_set k v d) = Some v.
Proof.
  induction d as [|[k' v'] d IH]; simpl.
  - now rewrite String.eqb_refl.
  - destruct (String.eqb k' k) eqn:E; simpl; rewrite E; auto.
Qed.

Lemma dict_get_set_other d k k' v :
  k' <> k -> dict_get k' (dict_set k v d) = dict_get k' d.
Proof.
  intros Hne. induction d as [|[k0 v0] d IH]; simpl.
  - destruct (String.eqb k k') eqn:E; auto.
    apply String.eqb_eq in E. congruence.
  - destruct (String.eqb k0 k) eqn:E; simpl.
    + apply String.eqb_eq in E. subst k0.
      destruct (String.eqb k k') eqn:E'; auto.
      apply String.eqb_eq in E'. congruence.
    + now rewrite IH.
Qed.

Lemma dict_get_In d k v : dict_get k d = Some v -> In (k, v) d.
Proof.
  induction d as [|[k' v'] d IH]; simpl; [discriminate|].
  destruct (String.eqb k' k) eqn:E.
  - apply String.eqb_eq in E. intros [= ->]. left. now subst.
  - intros H. right. auto.
Qed.

Lemma dict_get_None_keys d k : dict_get k d = None <-> ~ In k (dict_keys d).
Proof.
  induction d as [|[k' v'] d IH]; simpl.
  - tauto.
  - destruct (String.eqb k' k) eqn:E.
    + apply String.eqb_eq in E. split; [discriminate | intros H; exfalso; auto].
    + apply String.eqb_neq in E. rewrite IH. tauto.
Qed.

(** Assigning to a key that is present keeps the keys as they are; assigning
    to a new key adds it at the end. *)
Lemma dict_keys_set d k v :
  dict_keys (dict_set k v d) =
  if dict_contains k d then dict_keys d else (dict_keys d ++ [k])%list.
Proof.
  unfold dict_contains.
  induction d as [|[k' v'] d IH]; simpl; auto.
  destruct (String.eqb k' k) eqn:E; simpl; auto.
  rewrite IH. now destruct (dict_get k d).
Qed.

Lemma dict_set_In d k v k0 v0 :
  In (k0, v0) (dict_set k v d) -> (k0 = k /\ v0 = v) \/ In (k0, v0) d.
Proof.
  induction d as [|[k' v'] d IH]; simpl.
  - intros [[= <- <-]|[]]. auto.
  - destruct (String.eqb k' k) eqn:E; simpl.
    + apply String.eqb_eq in E. subst k'.
      intros [[= <- <-]|H]; auto.
    + intros [H|H]; auto. destruct (IH H); auto.
Qed.

Lemma dict_set_NoDup d k v :
  NoDup (dict_keys d) -> NoDup (dict_keys (dict_set k v d)).
Proof.
  intros Hnd. rewrite dict_keys_set. unfold dict_contains.
  destruct (dict_get k d) eqn:E; auto.
  apply dict_get_None_keys in E.
  apply NoDup_app; auto.
  - repeat constructor. simpl. tauto.
  - intros x Hx [<-|[]]. contradiction.
Qed.

Lemma dict_keys_count d k :
  NoDup (dict_keys d) -> In k (dict_keys d) ->
  count_occ string_dec (dict_keys d) k = 1%nat.
Proof.
  intros Hnd Hin.
  assert (H1 := proj1 (NoDup_count_occ string_dec (dict_keys d)) Hnd k).
  assert (H2 := proj1 (count_occ_In string_dec (dict_keys d) k) Hin).
  lia.
Qed.

Lemma dict_set_key_In d k v : In k (dict_keys (dict_set k v d)).
Proof.
  destruct (in_dec string_dec k (dict_keys (dict_set k v d))) as [H|H]; auto.
  apply dict_get_None_keys in H. rewrite dict_get_set_same in H. discriminate.
Qed.

End DictFacts.

(* ===================================================================== *)
(** * The handlers, case by case                                          *)
(* ===================================================================== *)

Section HandlerFacts.
Context {L : Libraries}.

(** The Fetch Gateway sends one request and fails exactly when the request
    fails or the status is not 2xx. *)
Lemma fetch_jina_markdown_eq url w st :
  fetch_jina_markdown url w st =
  let st1 := MkState (resource_store st) (jina_url url :: outbound st) in
  match http_get w (jina_url url) with
  | RequestFailed what => (Raise (RequestError what), st1)
  | Response status_code text =>
      if (200 <=? status_code) && (status_code <=? 299)
      then (Ok text, st1)
      else (Raise (HTTPStatusError status_code), st1)
  end.
Proof.
  unfold fetch_jina_markdown, bindM, client_get, lift, ret, raise, raise_for_status, jina_url.
  simpl. destruct (http_get w _) as [sc text|what]; auto.
  destruct ((200 <=? sc) && (sc <=? 299)); auto.
Qed.

(** [fetch_and_store_url], step by step: the store is assigned only on the
    last branch, after the fetch, the token estimate and the identifier have
    all been obtained. *)
Lemma fetch_and_store_url_eq url w st :
  fetch_and_store_url url w st =
  match fetch_jina_markdown url w st with
  | (Raise e, st1) => (Raise e, st1)
  | (Ok markdown, st1) =>
      match estimate_tokens markdown "gpt-4" with
      | Raise e => (Raise e, st1)
      | Ok token_count =>
          match normalize_uri url with
          | Raise e => (Raise e, st1)
          | Ok uri =>
              let content_hash := compute_hash markdown in
              let has_changed :=
                match dict_get uri (resource_store st1) with
                | Some old =>
                    negb (String.eqb (MarkdownResource.content_hash old) content_hash)
                | None => true
                end in
              (Ok [ TextContent.Make "text" markdown
                      (MarkdownMeta.Make url uri token_count content_hash
                         (Datetime.isoformat (utcnow w)) has_changed) ],
               MkState
                 (dict_set uri
                    (MarkdownResource.Make markdown token_count content_hash (utcnow w))
                    (resource_store st1))
                 (outbound st1))
          end
      end
  end.
Proof.
  unfold fetch_and_store_url, bindM at 1.
  destruct (fetch_jina_markdown url w st) as [[markdown|e] st1]; reflexivity.
Qed.

(** A failing upsert never assigns to the store. *)
Lemma fetch_and_store_url_raise url w st e st' :
  fetch_and_store_url url w st = (Raise e, st') ->
  resource_store st' = resource_store st.
Proof.
  rewrite fetch_and_store_url_eq, fetch_jina_markdown_eq. cbv zeta.
  destruct (http_get w (jina_url url)) as [sc text|what].
  - destruct ((200 <=? sc) && (sc <=? 299)).
    + destruct (estimate_tokens text "gpt-4").
      * destruct (normalize_uri url); [discriminate|].
        now intros [= _ <-].
      * now intros [= _ <-].
    + now intros [= _ <-].
  - now intros [= _ <-].
Qed.

(** A successful upsert, read backwards: the network answered with a 2xx
    status, the tokenizer and the normalizer returned, and the outcome is the
    one of the last branch. *)
Lemma fetch_and_store_url_ok url w st out st' :
  fetch_and_store_url url w st = (Ok out, st') ->
  exists status_code markdown token_count uri,
    http_get w (jina_url url) = Response status_code markdown
    /\ 200 <= status_code <= 299
    /\ estimate_tokens markdown "gpt-4" = Ok token_count
    /\ normalize_uri url = Ok uri
    /\ out = [ TextContent.Make "text" markdown
                 (MarkdownMeta.Make url uri token_count (compute_hash markdown)
                    (Datetime.isoformat (utcnow w))
                    match dict_get uri (resource_store st) with
                    | Some old =>
                        negb (String.eqb (MarkdownResource.content_hash old)
                                (compute_hash markdown))
                    | None => true
                    end) ]
    /\ st' = MkState
               (dict_set uri
                  (MarkdownResource.Make markdown token_count (compute_hash markdown)
                     (utcnow w))
                  (resource_store st))
               (jina_url url :: outbound st).
Proof.
  rewrite fetch_and_store_url_eq, fetch_jina_markdown_eq. cbv zeta.
  destruct (http_get w (jina_url url)) as [sc text|what]; [|discriminate].
  destruct ((200 <=? sc) && (sc <=? 299)) eqn:Hsc; [|discriminate].
  destruct (estimate_tokens text "gpt-4") as [tc|] eqn:Htc; [|discriminate].
  destruct (normalize_uri url) as [uri|] eqn:Huri; [|discriminate].
  simpl. intros [= <- <-].
  exists sc, text, tc, uri. repeat split; auto; lia.
Qed.

(** And forwards: when the three calls return, the upsert returns. *)
Lemma fetch_and_store_url_run url w st status_code markdown token_count uri :
  http_get w (jina_url url) = Response status_code markdown ->
  200 <= status_code <= 299 ->
  estimate_tokens markdown "gpt-4" = Ok token_count ->
  normalize_uri url = Ok uri ->
  exists out st', fetch_and_store_url url w st = (Ok out, st').
Proof.
  intros Hget Hsc Htc Huri.
  rewrite fetch_and_store_url_eq, fetch_jina_markdown_eq. cbv zeta.
  rewrite Hget.
  replace ((200 <=? status_code) && (status_code <=? 299)) with true
    by (symmetry; apply andb_true_iff; split; apply Z.leb_le; lia).
  rewrite Htc, Huri. eauto.
Qed.

(** [call_tool] checks its arguments and the tool name before anything
    else. *)
Lemma call_tool_eq name arguments w st :
  call_tool name arguments w st =
  match arguments with
  | None | Some [] => (Raise (ValueError "Missing arguments"), st)
  | Some args =>
      if String.eqb name "fetch_markdown" then
        match URLRequest args with
        | Ok u => fetch_and_store_url (AnyUrl.str u) w st
        | Raise e => (Raise e, st)
        end
      else (Raise (ValueError ("Unknown tool: " ++ name)), st)
  end.
Proof.
  unfold call_tool.
  destruct arguments as [[|a args]|]; auto.
  destruct (String.eqb name "fetch_markdown"); reflexivity.
Qed.

(** [read_resource] only looks at the store. *)
Lemma read_resource_eq uri w st :
  read_resource uri w st =
  (if String.eqb (AnyUrl.scheme uri) "jinamd" then
     match dict_get (AnyUrl.str uri) (resource_store st) with
     | Some res => Ok (MarkdownResource.markdown res ++ footer res)
     | None => Raise (ValueError ("Resource not found: " ++ AnyUrl.str uri))
     end
   else Raise (ValueError ("Unsupported URI scheme: " ++ AnyUrl.scheme uri)),
   st).
Proof.
  unfold read_resource.
  destruct (String.eqb (AnyUrl.scheme uri) "jinamd"); [|reflexivity].
  unfold bindM, get_store, lift, raise, ret, dict_contains, dict_getitem.
  cbv beta iota delta [negb].
  destruct (dict_get (AnyUrl.str uri) (resource_store st)) eqn:E;
    cbv beta iota; rewrite ?E; reflexivity.
Qed.

Lemma list_resources_state w st : snd (list_resources w st) = st.
Proof. unfold list_resources, bindM, get_store, lift. reflexivity. Qed.

(** Only a successful upsert changes the store, and it does so by one
    assignment of a fresh entry whose hash is the hash of its text. *)
Lemma handle_store r w st :
  resource_store (handle r w st) = resource_store st
  \/ exists uri markdown token_count t,
       resource_store (handle r w st) =
       dict_set uri (MarkdownResource.Make markdown token_count (compute_hash markdown) t)
         (resource_store st).
Proof.
  assert (Hup : forall url,
    resource_store (snd (fetch_and_store_url url w st)) = resource_store st
    \/ exists uri markdown token_count t,
         resource_store (snd (fetch_and_store_url url w st)) =
         dict_set uri (MarkdownResource.Make markdown token_count (compute_hash markdown) t)
           (resource_store st)).
  { intros url.
    destruct (fetch_and_store_url url w st) as [[out|e] st'] eqn:E.
    - apply fetch_and_store_url_ok in E.
      destruct E as (sc & md & tc & uri & _ & _ & _ & _ & _ & ->).
      right. simpl. eauto.
    - left. simpl. eapply fetch_and_store_url_raise; eauto. }
  destruct r as [name arguments|url| |uri]; unfold handle.
  - rewrite call_tool_eq.
    destruct arguments as [[|a args]|]; auto.
    destruct (String.eqb name "fetch_markdown"); auto.
    destruct (URLRequest (a :: args)); auto.
  - apply Hup.
  - left. now rewrite list_resources_state.
  - left. now rewrite read_resource_eq.
Qed.

(** At most one entry per identifier, in every state of a run. *)
Lemma reachable_NoDup st : reachable st -> NoDup (dict_keys (resource_store st)).
Proof.
  induction 1 as [|st r w _ IH].
  - constructor.
  - destruct (handle_store r w st) as [->|(uri & md & tc & t & ->)]; auto.
    now apply dict_set_NoDup.
Qed.

(** The stored hash is the hash of the stored text, in every state of a
    run. *)
Lemma reachable_hash st :
  reachable st ->
  forall k res, In (k, res) (resource_store st) ->
    MarkdownResource.content_hash res = compute_hash (MarkdownResource.markdown res).
Proof.
  induction 1 as [|st r w _ IH]; intros k res Hin.
  - destruct Hin.
  - destruct (handle_store r w st) as [E|(uri & md & tc & t & E)];
      rewrite E in Hin; eauto.
    apply dict_set_In in Hin. destruct Hin as [[_ ->]|Hin]; eauto.
Qed.

End HandlerFacts.

(* ===================================================================== *)
(** * The fingerprint                                                     *)
(* ===================================================================== *)

Section FingerprintFacts.

Lemma length_app (s t : string) :
  String.length (s ++ t) = (String.length s + String.length t)%nat.
Proof. induction s; simpl; auto. Qed.

Lemma forallb_str_app p (s t : string) :
  Py.forallb_str p (s ++ t) = Py.forallb_str p s && Py.forallb_str p t.
Proof. induction s; simpl; auto. rewrite IHs. apply andb_assoc. Qed.

Lemma hex_digit_lower d : 0 <= d < 16 -> is_lower_hex (Sha256.hex_digit d) = true.
Proof.
  intros H.
  assert (E : d = 0 \/ d = 1 \/ d = 2 \/ d = 3 \/ d = 4 \/ d = 5 \/ d = 6 \/ d = 7
              \/ d = 8 \/ d = 9 \/ d = 10 \/ d = 11 \/ d = 12 \/ d = 13 \/ d = 14
              \/ d = 15) by lia.
  repeat (destruct E as [->|E]; [reflexivity|]). now subst.
Qed.

Lemma hex_byte_lower b :
  0 <= b < 256 -> Py.forallb_str is_lower_hex (Sha256.hex_byte b) = true.
Proof.
  intros H. unfold Sha256.hex_byte. simpl.
  rewrite !hex_digit_lower; auto.
  - apply Z.mod_pos_bound. lia.
  - split; [apply Z.div_pos; lia | apply Z.div_lt_upper_bound; lia].
Qed.

Lemma hex_length bs : String.length (Sha256.hex bs) = (2 * List.length bs)%nat.
Proof.
  induction bs as [|b bs IH]; simpl; auto. rewrite IH. lia.
Qed.

Lemma hex_lower bs :
  Forall (fun b => 0 <= b < 256) bs ->
  Py.forallb_str is_lower_hex (Sha256.hex bs) = true.
Proof.
  induction 1 as [|b bs Hb _ IH]; auto.
  cbn [Sha256.hex]. rewrite forallb_str_app, hex_byte_lower, IH; auto.
Qed.

Lemma be_bytes_length n x : List.length (Sha256.be_bytes n x) = n.
Proof. induction n; simpl; auto. Qed.

Lemma be_bytes_range n x : Forall (fun b => 0 <= b < 256) (Sha256.be_bytes n x).
Proof.
  induction n; simpl; constructor; auto. apply Z.mod_pos_bound. lia.
Qed.

Lemma add32_range x y : 0 <= Sha256.add32 x y < 2 ^ 32.
Proof. unfold Sha256.add32. apply Z.mod_pos_bound. lia. Qed.

Lemma compress_chaining h block : chaining (Sha256.compress h block).
Proof.
  unfold Sha256.compress, chaining. cbv zeta. split; [reflexivity|].
  repeat constructor; apply add32_range.
Qed.

Lemma H0_chaining : chaining Sha256.H0.
Proof.
  split; [reflexivity|]. unfold Sha256.H0.
  repeat constructor; lia.
Qed.

Lemma hash_words_chaining msg : chaining (Sha256.hash_words msg).
Proof.
  unfold Sha256.hash_words. cbv zeta.
  generalize (seq 0 (List.length (Sha256.pad msg) / 64)).
  generalize H0_chaining. generalize Sha256.H0.
  intros h Hh l. revert h Hh.
  induction l as [|i l IH]; intros h Hh; simpl; auto.
  apply IH. apply compress_chaining.
Qed.

Lemma digest_length msg : List.length (Sha256.digest msg) = 32%nat.
Proof.
  unfold Sha256.digest.
  destruct (hash_words_chaining msg) as [Hlen _].
  destruct (Sha256.hash_words msg) as [|a [|b [|c [|d [|e [|f [|g [|h [|]]]]]]]]];
    try discriminate.
  reflexivity.
Qed.

Lemma digest_range msg : Forall (fun b => 0 <= b < 256) (Sha256.digest msg).
Proof.
  unfold Sha256.digest. induction (Sha256.hash_words msg); cbn [flat_map].
  - constructor.
  - apply Forall_app. split; auto. apply (be_bytes_range 4).
Qed.

(** The fingerprint is 64 lowercase hexadecimal digits. *)
Lemma compute_hash_length content : String.length (compute_hash content) = 64%nat.
Proof.
  unfold compute_hash, Sha256.hexdigest. now rewrite hex_length, digest_length.
Qed.

Lemma compute_hash_lower_hex content :
  Py.forallb_str is_lower_hex (compute_hash content) = true.
Proof.
  unfold compute_hash, Sha256.hexdigest. apply hex_lower, digest_range.
Qed.

(** The constants of FIPS 180-4, by their ends. *)
Example round_constants :
  List.length Sha256.K = 64%nat
  /\ nth 0 Sha256.K 0 = 0x428a2f98 /\ nth 63 Sha256.K 0 = 0xc67178f2
  /\ List.length Sha256.H0 = 8%nat
  /\ nth 0 Sha256.H0 0 = 0x6a09e667 /\ nth 7 Sha256.H0 0 = 0x5be0cd19.
Proof. repeat split. Qed.

(** Known answers: the FIPS 180-4 vectors of one and two blocks, and the
    empty message. *)
Example compute_hash_abc :
  compute_hash "abc"
  = "ba7816bf8f01cfea414140de5dae2223b00361a396177a9cb410ff61f20015ad".
Proof. vm_compute. reflexivity. Qed.

Example compute_hash_empty :
  compute_hash ""
  = "e3b0c44298fc1c149afbf4c8996fb92427ae41e4649b934ca495991b7852b855".
Proof. vm_compute. reflexivity. Qed.

Example compute_hash_two_blocks :
  compute_hash "abcdbcdecdefdefgefghfghighijhijkijkljklmklmnlmnomnopnopq"
  = "248d6a61d20638b8e5c026930c3e6039a33ce45964ff2167f6ecedd419db06c1".
Proof. vm_compute. reflexivity. Qed.

End FingerprintFacts.

(* ===================================================================== *)
(** * Listing                                                             *)
(* ===================================================================== *)

Section ListingFacts.
Context {L : Libraries}.

(** What [list_resources] builds for one item of the store. *)
Lemma list_resources_eq w st :
  list_resources w st =
  (mapR (fun '(uri, res) =>
           match AnyUrl_validate uri with
           | Ok u =>
               Ok (Resource.Make u (resource_name uri) (resource_description res)
                     "text/markdown")
           | Raise e => Raise e
           end) (resource_store st), st).
Proof. reflexivity. Qed.

Lemma mapR_names (d : Dict MarkdownResource.t) rs :
  mapR (fun '(uri, res) =>
          match AnyUrl_validate uri with
          | Ok u =>
              Ok (Resource.Make u (resource_name uri) (resource_description res)
                    "text/markdown")
          | Raise e => Raise e
          end) d = Ok rs ->
  map Resource.name rs = map resource_name (dict_keys d).
Proof.
  revert rs. induction d as [|[k res] d IH]; intros rs; cbn [mapR].
  - now intros [= <-].
  - destruct (AnyUrl_validate k) as [u|]; [|discriminate].
    destruct (mapR _ d) as [rs'|]; [|discriminate].
    intros [= <-]. cbn [map dict_keys fst Resource.name]. f_equal. now apply IH.
Qed.

Lemma mapR_total (d : Dict MarkdownResource.t) :
  (forall k, In k (dict_keys d) -> exists u, AnyUrl_validate k = Ok u) ->
  exists rs,
    mapR (fun '(uri, res) =>
            match AnyUrl_validate uri with
            | Ok u =>
                Ok (Resource.Make u (resource_name uri) (resource_description res)
                      "text/markdown")
            | Raise e => Raise e
            end) d = Ok rs.
Proof.
  induction d as [|[k res] d IH]; intros Hall; cbn [mapR].
  - eauto.
  - destruct (Hall k) as [u ->]; [now left|].
    destruct IH as [rs' ->]; [intros k' Hk'; apply Hall; now right|].
    eauto.
Qed.

(** A listed resource named after [uri] carries the validated [uri]. *)
Lemma mapR_uri (d : Dict MarkdownResource.t) rs r uri :
  mapR (fun '(uri, res) =>
          match AnyUrl_validate uri with
          | Ok u =>
              Ok (Resource.Make u (resource_name uri) (resource_description res)
                    "text/markdown")
          | Raise e => Raise e
          end) d = Ok rs ->
  In r rs ->
  Resource.name r = resource_name uri ->
  AnyUrl_validate uri = Ok (Resource.uri r).
Proof.
  intros Hrs Hr Hname. revert rs Hrs Hr.
  induction d as [|[k res] d IH]; intros rs; cbn [mapR].
  - intros [= <-] [].
  - destruct (AnyUrl_validate k) as [u|] eqn:Hu; [|discriminate].
    destruct (mapR _ d) as [rs'|]; [|discriminate].
    intros [= <-] [<-|Hr]; eauto.
    cbn [Resource.name] in Hname. unfold resource_name in Hname.
    injection Hname as ->. now cbn [Resource.uri].
Qed.

(** The number of listed resources named after [uri] is the number of items
    of the store with key [uri]. *)
Lemma listed_for_length uri (rs : list Resource.t) (keys : list string) :
  map Resource.name rs = map resource_name keys ->
  List.length (listed_for uri rs) = count_occ string_dec keys uri.
Proof.
  revert keys. induction rs as [|r rs IH]; intros [|k keys]; try discriminate; auto.
  cbn [map]. intros [= Hr Hrs]. unfold listed_for in *. cbn [filter count_occ].
  rewrite Hr.
  destruct (string_dec k uri) as [->|Hne].
  - rewrite String.eqb_refl. cbn [List.length]. f_equal. auto.
  - replace (String.eqb (resource_name k) (resource_name uri)) with false; auto.
    symmetry. apply String.eqb_neq. unfold resource_name. intros [= E]. contradiction.
Qed.

(** A comprehension over a list with an element on which [f] raises does
    not return: it raises what [f] raises on the first such element. *)
Lemma mapR_In_Raise {A B : Type} (f : A -> Result B) (l : list A) x e :
  In x l -> f x = Raise e ->
  exists e' y, In y l /\ f y = Raise e' /\ mapR f l = Raise e'.
Proof.
  induction l as [|a l IH]; intros Hin Hx; [destruct Hin|].
  cbn [mapR]. destruct (f a) as [b|e0] eqn:Ha.
  - destruct Hin as [->|Hin]; [congruence|].
    destruct (IH Hin Hx) as (e' & y & Hy & Hfy & ->).
    exists e', y. repeat split; auto. now right.
  - exists e0, a. repeat split; auto. now left.
Qed.

End ListingFacts.

(* ===================================================================== *)
(** * Slices                                                              *)
(* ===================================================================== *)

Section SliceFacts.

Lemma take_min n s : Py.take (Nat.min n (String.length s)) s = Py.take n s.
Proof.
  revert s. induction n as [|n IH]; intros [|a s]; simpl; auto.
  now rewrite IH.
Qed.

Lemma take_length n s :
  (n <= String.length s)%nat -> String.length (Py.take n s) = n.
Proof.
  revert s. induction n as [|n IH]; intros [|a s]; simpl; auto; try lia.
  intros H. rewrite IH; lia.
Qed.

Lemma take_forallb p n s :
  Py.forallb_str p s = true -> Py.forallb_str p (Py.take n s) = true.
Proof.
  revert s. induction n as [|n IH]; intros [|a s]; simpl; auto.
  intros H. apply andb_true_iff in H. destruct H as [-> H]. simpl. auto.
Qed.

(** [s[:n]] for a literal [n >= 0] is the first [n] characters. *)
Lemma slice_to_take s n : 0 <= n -> Py.slice_to s n = Py.take (Z.to_nat n) s.
Proof.
  intros Hn. unfold Py.slice_to, Py.clamp, Py.len.
  destruct (n <? 0) eqn:E; [apply Z.ltb_lt in E; lia|].
  rewrite <- take_min with (n := Z.to_nat n). f_equal. lia.
Qed.

Lemma drop_min n s : Py.drop (Nat.min n (String.length s)) s = Py.drop n s.
Proof.
  revert s. induction n as [|n IH]; intros [|a s]; simpl; auto.
Qed.

(** [s[n:]] for an offset [n]. *)
Lemma slice_from_drop s n : 0 <= n -> Py.slice_from s n = Py.drop (Z.to_nat n) s.
Proof.
  intros Hn. unfold Py.slice_from, Py.clamp, Py.len.
  destruct (n <? 0) eqn:E; [apply Z.ltb_lt in E; lia|].
  rewrite <- drop_min with (n := Z.to_nat n). f_equal. lia.
Qed.

Lemma drop_length k x : String.length (Py.drop k x) = (String.length x - k)%nat.
Proof. revert x. induction k as [|k IH]; intros [|a x]; simpl; auto. Qed.

Lemma clamp_nat s n : Py.clamp s (Z.of_nat n) = Nat.min n (String.length s).
Proof.
  unfold Py.clamp, Py.len.
  destruct (Z.of_nat n <? 0) eqn:E; [apply Z.ltb_lt in E; lia|]. lia.
Qed.

(** [s[a:b]] for offsets [a <= b]. *)
Lemma slice_nat s a b :
  Py.slice s (Z.of_nat a) (Z.of_nat b) = Py.take (b - a) (Py.drop a s).
Proof.
  unfold Py.slice. rewrite !clamp_nat, drop_min.
  rewrite <- (take_min (b - a)), <- (take_min (Nat.min b _ - Nat.min a _)).
  rewrite drop_length. f_equal. lia.
Qed.

(** [s.find(c, n)] for an offset [n]. *)
Lemma find_nat c s n :
  Py.find c s (Z.of_nat n) =
  match Py.index_of c (Py.drop n s) with
  | Some k => Z.of_nat (Nat.min n (String.length s) + k)
  | None => -1
  end.
Proof. unfold Py.find. now rewrite clamp_nat, drop_min. Qed.

Lemma index_of_lt c s k : Py.index_of c s = Some k -> (k < String.length s)%nat.
Proof.
  revert k. induction s as [|a s IH]; simpl; intros k; [discriminate|].
  destruct (Ascii.eqb a c).
  - intros [= <-]. lia.
  - destruct (Py.index_of c s); [|discriminate].
    intros [= <-]. specialize (IH _ eq_refl). lia.
Qed.

Lemma index_of_None c s : Py.index_of c s = None <-> Py.contains c s = false.
Proof.
  induction s as [|a s IH]; simpl; [tauto|].
  destruct (Ascii.eqb a c); [split; discriminate|].
  destruct (Py.index_of c s); [|tauto].
  split; [discriminate|]. intros H. apply IH in H. discriminate.
Qed.

Lemma index_of_app c x y :
  Py.index_of c (x ++ y) =
  match Py.index_of c x with
  | Some k => Some k
  | None =>
      match Py.index_of c y with
      | Some j => Some (String.length x + j)%nat
      | None => None
      end
  end.
Proof.
  induction x as [|a x IH]; simpl.
  - now destruct (Py.index_of c y).
  - destruct (Ascii.eqb a c); auto.
    rewrite IH. destruct (Py.index_of c x); auto.
    now destruct (Py.index_of c y).
Qed.

Lemma contains_app c x y : Py.contains c (x ++ y) = Py.contains c x || Py.contains c y.
Proof.
  induction x as [|a x IH]; simpl; auto. now destruct (Ascii.eqb a c).
Qed.

Lemma take_app_le k x y :
  (k <= String.length x)%nat -> Py.take k (x ++ y) = Py.take k x.
Proof.
  revert x. induction k as [|k IH]; intros [|a x]; simpl; auto; try lia.
  intros H. rewrite IH; auto. lia.
Qed.

Lemma take_app_ge j x y : Py.take (String.length x + j) (x ++ y) = x ++ Py.take j y.
Proof. induction x as [|a x IH]; simpl; auto. now rewrite IH. Qed.

Lemma take_all x : Py.take (String.length x) x = x.
Proof. induction x as [|a x IH]; simpl; auto. now rewrite IH. Qed.

Lemma drop_app_le k x y :
  (k <= String.length x)%nat -> Py.drop k (x ++ y) = Py.drop k x ++ y.
Proof.
  revert x. induction k as [|k IH]; intros [|a x]; simpl; auto; try lia.
  intros H. apply IH. lia.
Qed.

Lemma drop_app_ge j x y : Py.drop (String.length x + j) (x ++ y) = Py.drop j y.
Proof. induction x as [|a x IH]; simpl; auto. Qed.

Lemma contains_drop c k x : Py.contains c x = false -> Py.contains c (Py.drop k x) = false.
Proof.
  revert x. induction k as [|k IH]; intros [|a x]; simpl; auto.
  destruct (Ascii.eqb a c); [discriminate|]. auto.
Qed.

Lemma contains_lstrip c cs x :
  Py.contains c x = false -> Py.contains c (Py.lstrip cs x) = false.
Proof.
  induction x as [|a x IH]; simpl; auto.
  destruct (Ascii.eqb a c) eqn:E; [discriminate|].
  intros H. destruct (Py.contains a cs); auto. simpl. now rewrite E.
Qed.

Lemma app_assoc (x y z : string) : (x ++ y) ++ z = x ++ y ++ z.
Proof. induction x as [|a x IH]; simpl; auto. now rewrite IH. Qed.

Lemma app_empty_r (x : string) : x ++ "" = x.
Proof. induction x as [|a x IH]; simpl; auto. now rewrite IH. Qed.

Lemma replace_app old new x y :
  Py.replace old new (x ++ y) = Py.replace old new x ++ Py.replace old new y.
Proof.
  induction x as [|a x IH]; simpl; auto.
  destruct (Ascii.eqb a old); rewrite IH; auto. now rewrite app_assoc.
Qed.

Lemma contains_remove c old x :
  Py.contains c x = false -> Py.contains c (Py.replace old "" x) = false.
Proof.
  induction x as [|a x IH]; simpl; auto.
  destruct (Ascii.eqb a c) eqn:E; [discriminate|].
  intros H. destruct (Ascii.eqb a old); simpl; auto. rewrite E. auto.
Qed.

(** A suffix that starts with a character [lstrip] keeps is left whole. *)
Lemma lstrip_app cs x d t :
  Py.contains d cs = false ->
  Py.lstrip cs (x ++ String d t) = Py.lstrip cs x ++ String d t.
Proof.
  intros Hd. induction x as [|a x IH]; simpl.
  - now rewrite Hd.
  - destruct (Py.contains a cs); auto.
Qed.

End SliceFacts.

(* ===================================================================== *)
(** * Properties of the resource cache                                    *)
(* ===================================================================== *)

Section CacheProperties.
Context {L : Libraries}.

(** C2 (error isolation).  When the Fetch Gateway call inside
    [fetch_and_store_url] raises (the request failed, or the status was not
    2xx), the upsert raises the same exception and the resource store after
    the call is the store before it: every identifier, the one of the URL
    included, has the entry it had. *)
Theorem C2_fetch_error_leaves_store_unchanged url w st e st1 :
  fetch_jina_markdown url w st = (Raise e, st1) ->
  exists st',
    fetch_and_store_url url w st = (Raise e, st')
    /\ resource_store st' = resource_store st
    /\ (forall k, dict_get k (resource_store st') = dict_get k (resource_store st))
    /\ ((exists what, e = RequestError what)
        \/ (exists status, e = HTTPStatusError status /\ ~ 200 <= status <= 299)).
Proof.
  intros Hfetch. exists st1.
  assert (Hup : fetch_and_store_url url w st = (Raise e, st1))
    by (rewrite fetch_and_store_url_eq, Hfetch; reflexivity).
  assert (Hst : resource_store st1 = resource_store st)
    by (eapply fetch_and_store_url_raise; eauto).
  repeat split; auto.
  - intros k. now rewrite Hst.
  - rewrite fetch_jina_markdown_eq in Hfetch. cbv zeta in Hfetch.
    destruct (http_get w (jina_url url)) as [sc text|what].
    + destruct ((200 <=? sc) && (sc <=? 299)) eqn:Hsc; [discriminate|].
      injection Hfetch as <- _. right. exists sc. split; auto.
      intros [H1 H2]. apply andb_false_iff in Hsc.
      destruct Hsc as [Hsc|Hsc]; apply Z.leb_gt in Hsc; lia.
    + injection Hfetch as <- _. left. eauto.
Qed.

(** C10 (argument and tool-name checks).  [call_tool] raises before any
    fetch and before any assignment to the store when the arguments are
    missing or empty, and when the tool name is not ["fetch_markdown"]: the
    state after the call, store and requests sent, is the state before. *)
Theorem C10_call_tool_rejects_before_fetch name arguments w st :
  arguments = None \/ arguments = Some [] \/ name <> "fetch_markdown" ->
  exists msg,
    call_tool name arguments w st = (Raise (ValueError msg), st)
    /\ (arguments = None \/ arguments = Some [] -> msg = "Missing arguments")
    /\ (msg = "Missing arguments" \/ msg = "Unknown tool: " ++ name)
    /\ resource_store (snd (call_tool name arguments w st)) = resource_store st
    /\ outbound (snd (call_tool name arguments w st)) = outbound st.
Proof.
  intros H. rewrite call_tool_eq.
  destruct arguments as [[|a args]|].
  - exists "Missing arguments". repeat split; auto.
  - destruct H as [H|[H|H]]; try discriminate.
    apply String.eqb_neq in H. rewrite H.
    exists ("Unknown tool: " ++ name). repeat split; auto.
    intros [E|E]; discriminate.
  - exists "Missing arguments". repeat split; auto.
Qed.

(** C6 (read errors).  [read_resource] raises the unsupported-scheme error
    (the specification's ValidationError) exactly when the scheme of the
    identifier is not ["jinamd"]; it raises the not-found error (the
    specification's NotFoundError) exactly when the scheme is ["jinamd"] and
    the store has no entry under the identifier, as for every identifier
    before anything was fetched; and it returns otherwise. *)
Theorem C6_read_resource_outcomes uri w st :
  (fst (read_resource uri w st)
     = Raise (ValueError ("Unsupported URI scheme: " ++ AnyUrl.scheme uri))
   <-> AnyUrl.scheme uri <> "jinamd")
  /\ (fst (read_resource uri w st)
        = Raise (ValueError ("Resource not found: " ++ AnyUrl.str uri))
      <-> AnyUrl.scheme uri = "jinamd"
          /\ dict_get (AnyUrl.str uri) (resource_store st) = None)
  /\ ((exists text, fst (read_resource uri w st) = Ok text)
      <-> AnyUrl.scheme uri = "jinamd"
          /\ exists res, dict_get (AnyUrl.str uri) (resource_store st) = Some res)
  /\ (AnyUrl.scheme uri = "jinamd" ->
      fst (read_resource uri w initial_state)
        = Raise (ValueError ("Resource not found: " ++ AnyUrl.str uri))).
Proof.
  rewrite !read_resource_eq. cbn [fst].
  destruct (String.eqb (AnyUrl.scheme uri) "jinamd") eqn:Hs;
    [apply String.eqb_eq in Hs | apply String.eqb_neq in Hs];
    destruct (dict_get (AnyUrl.str uri) (resource_store st)) as [res|] eqn:Hg;
    repeat split; intros; break_hyps;
    try discriminate; try congruence; try contradiction; eauto.
Qed.

(** C7 (the footer, and reads leave the store alone).  A read of a stored
    identifier returns the stored text followed by the footer: the token
    estimate, the first 12 characters of the stored hash, and the fetch time;
    and the state after the read is the state before it.  In a state of a run
    those 12 characters are the first 12 hexadecimal digits of the
    fingerprint of the stored text. *)
Theorem C7_read_appends_footer_and_keeps_store uri w st res :
  AnyUrl.scheme uri = "jinamd" ->
  dict_get (AnyUrl.str uri) (resource_store st) = Some res ->
  read_resource uri w st =
    (Ok (MarkdownResource.markdown res
         ++ nl ++ nl ++ "---" ++ nl
         ++ "_Estimated tokens_: " ++ Py.str_of_int (MarkdownResource.token_count res) ++ nl
         ++ "_Content hash_: `" ++ Py.take 12 (MarkdownResource.content_hash res)
         ++ "...`" ++ nl
         ++ "_Fetched at_: " ++ Datetime.isoformat (MarkdownResource.fetched_at res)
         ++ " UTC"),
     st)
  /\ dict_get (AnyUrl.str uri) (resource_store (snd (read_resource uri w st))) = Some res
  /\ (reachable st ->
      Py.take 12 (MarkdownResource.content_hash res)
        = Py.take 12 (compute_hash (MarkdownResource.markdown res))
      /\ String.length (Py.take 12 (MarkdownResource.content_hash res)) = 12%nat
      /\ Py.forallb_str is_lower_hex (Py.take 12 (MarkdownResource.content_hash res)) = true).
Proof.
  intros Hs Hg. rewrite read_resource_eq.
  apply String.eqb_eq in Hs. rewrite Hs, Hg. cbn [snd].
  split; [|split; [assumption|]].
  - unfold footer. now rewrite slice_to_take by lia.
  - intros Hreach.
    rewrite (reachable_hash st Hreach _ _ (dict_get_In _ _ _ Hg)).
    repeat split.
    + apply take_length. rewrite compute_hash_length. lia.
    + apply take_forallb, compute_hash_lower_hex.
Qed.

(** C5 (the fingerprint is never stale).  In every state of a run, the
    [content_hash] of every stored entry is the fingerprint of its
    [markdown]: the SHA-256 digest of the UTF-8 bytes of the text, written as
    64 lowercase hexadecimal digits. *)
Theorem C5_stored_hash_is_fingerprint_of_stored_text st k res :
  reachable st ->
  In (k, res) (resource_store st) ->
  MarkdownResource.content_hash res = compute_hash (MarkdownResource.markdown res)
  /\ MarkdownResource.content_hash res
       = Sha256.hex (Sha256.digest (encode_utf8 (MarkdownResource.markdown res)))
  /\ String.length (MarkdownResource.content_hash res) = 64%nat
  /\ Py.forallb_str is_lower_hex (MarkdownResource.content_hash res) = true.
Proof.
  intros Hreach Hin.
  rewrite (reachable_hash st Hreach k res Hin).
  repeat split.
  - apply compute_hash_length.
  - apply compute_hash_lower_hex.
Qed.

(** Two upserts in a row of URLs with the same identifier: the second one
    finds the entry the first one stored, and replaces it. *)
Lemma two_upserts u1 u2 uri w1 w2 st0 out1 st1 out2 st2 :
  normalize_uri u1 = Ok uri ->
  normalize_uri u2 = Ok uri ->
  fetch_and_store_url u1 w1 st0 = (Ok out1, st1) ->
  fetch_and_store_url u2 w2 st1 = (Ok out2, st2) ->
  exists sc1 md1 tc1 sc2 md2 tc2,
    http_get w1 (jina_url u1) = Response sc1 md1
    /\ http_get w2 (jina_url u2) = Response sc2 md2
    /\ dict_get uri (resource_store st1)
         = Some (MarkdownResource.Make md1 tc1 (compute_hash md1) (utcnow w1))
    /\ dict_get uri (resource_store st2)
         = Some (MarkdownResource.Make md2 tc2 (compute_hash md2) (utcnow w2))
    /\ dict_keys (resource_store st2) = dict_keys (resource_store st1)
    /\ out1 = [ TextContent.Make "text" md1
                  (MarkdownMeta.Make u1 uri tc1 (compute_hash md1)
                     (Datetime.isoformat (utcnow w1))
                     match dict_get uri (resource_store st0) with
                     | Some old =>
                         negb (String.eqb (MarkdownResource.content_hash old)
                                 (compute_hash md1))
                     | None => true
                     end) ]
    /\ out2 = [ TextContent.Make "text" md2
                  (MarkdownMeta.Make u2 uri tc2 (compute_hash md2)
                     (Datetime.isoformat (utcnow w2))
                     (negb (String.eqb (compute_hash md1) (compute_hash md2)))) ].
Proof.
  intros Hu1 Hu2 H1 H2.
  apply fetch_and_store_url_ok in H1, H2.
  destruct H1 as (sc1 & md1 & tc1 & uri1 & Hg1 & _ & _ & Hn1 & -> & ->).
  destruct H2 as (sc2 & md2 & tc2 & uri2 & Hg2 & _ & _ & Hn2 & -> & ->).
  assert (uri1 = uri) by congruence. assert (uri2 = uri) by congruence. subst.
  exists sc1, md1, tc1, sc2, md2, tc2. cbn [resource_store].
  rewrite !dict_get_set_same.
  repeat split; auto.
  rewrite (dict_keys_set (dict_set _ _ _)). unfold dict_contains.
  now rewrite dict_get_set_same.
Qed.


(** One entry per identifier, and an upsert replaces.  In every state of a
    run the keys of the store are pairwise distinct.  After two successful
    upserts of the same URL the store has exactly one entry under the
    identifier of the URL, holding the text of the second fetch; when
    [list_resources] returns, its list has exactly one resource for the
    identifier, and it returns when every key of the store validates as a
    URL; and [read_resource] returns the second text followed by its
    footer. *)
Lemma upsert_replaces_the_entry st0 :
  reachable st0 ->
  NoDup (dict_keys (resource_store st0))
  /\ forall url w1 w2 out1 st1 out2 st2,
       fetch_and_store_url url w1 st0 = (Ok out1, st1) ->
       fetch_and_store_url url w2 st1 = (Ok out2, st2) ->
       exists uri sc md2 res,
         normalize_uri url = Ok uri
         /\ http_get w2 (jina_url url) = Response sc md2
         /\ NoDup (dict_keys (resource_store st2))
         /\ count_occ string_dec (dict_keys (resource_store st2)) uri = 1%nat
         /\ dict_get uri (resource_store st2) = Some res
         /\ MarkdownResource.markdown res = md2
         /\ (forall w rs st',
               list_resources w st2 = (Ok rs, st') ->
               st' = st2
               /\ exists r, listed_for uri rs = [r]
                            /\ AnyUrl_validate uri = Ok (Resource.uri r))
         /\ (forall w,
               (forall k, In k (dict_keys (resource_store st2)) ->
                          exists u, AnyUrl_validate k = Ok u) ->
               exists rs, list_resources w st2 = (Ok rs, st2))
         /\ (forall id w,
               AnyUrl.scheme id = "jinamd" -> AnyUrl.str id = uri ->
               read_resource id w st2 = (Ok (md2 ++ footer res), st2)).
Proof.
  intros Hreach. split; [now apply reachable_NoDup|].
  intros url w1 w2 out1 st1 out2 st2 H1 H2.
  assert (Hr2 : reachable st2).
  { replace st2 with (handle (FetchAndStore url) w2 (handle (FetchAndStore url) w1 st0)).
    - do 2 apply reachable_step. assumption.
    - cbn [handle]. rewrite H1. cbn [snd]. now rewrite H2. }
  destruct (fetch_and_store_url_ok _ _ _ _ _ H1) as (_ & _ & _ & uri & _ & _ & _ & Hn & _).
  destruct (two_upserts url url uri w1 w2 st0 out1 st1 out2 st2 Hn Hn H1 H2)
    as (sc1 & md1 & tc1 & sc2 & md2 & tc2 & Hg1 & Hg2 & Hs1 & Hs2 & Hk & -> & ->).
  assert (Hnd := reachable_NoDup st2 Hr2).
  assert (Hin : In uri (dict_keys (resource_store st2))).
  { destruct (in_dec string_dec uri (dict_keys (resource_store st2))) as [H|H]; auto.
    apply dict_get_None_keys in H. congruence. }
  assert (Hcount := dict_keys_count _ _ Hnd Hin).
  exists uri, sc2, md2, (MarkdownResource.Make md2 tc2 (compute_hash md2) (utcnow w2)).
  split; [assumption|]. split; [assumption|]. split; [assumption|].
  split; [assumption|]. split; [assumption|]. split; [reflexivity|].
  split; [|split].
  - intros w rs st' Hlist. rewrite list_resources_eq in Hlist.
    injection Hlist as Hrs <-. split; [reflexivity|].
    assert (Hlen := listed_for_length uri rs _ (mapR_names _ _ Hrs)).
    rewrite Hcount in Hlen.
    destruct (listed_for uri rs) as [|r [|r' l]] eqn:Hl; try discriminate.
    exists r. split; [reflexivity|].
    assert (Hr : In r (listed_for uri rs)) by (rewrite Hl; now left).
    unfold listed_for in Hr. apply filter_In in Hr. destruct Hr as [Hr Hname].
    apply String.eqb_eq in Hname. eapply mapR_uri; eauto.
  - intros w Hall. rewrite list_resources_eq.
    destruct (mapR_total _ Hall) as [rs ->]. eauto.
  - intros id w Hs Hid. rewrite read_resource_eq.
    apply String.eqb_eq in Hs. now rewrite Hs, Hid, Hs2.
Qed.

(** C4, where the code departs from it.  [normalize_uri] keeps the port of
    the URL in the key, glued to the path (line 43), and [list_resources]
    validates every key of the store as a URL (line 120).  So when the
    validation refuses the key of a URL, two successful upserts of the URL
    leave exactly one entry under its identifier, holding the text of the
    second fetch, as C4 says, but [list_resources] raises on the store they
    leave, whatever the world: it reports no resource at all, where C4 has
    it report exactly one for the identifier.  The exception is the one the
    validation of a key of the store raised; it is the one raised on the
    identifier of the URL when the store was empty before the two
    upserts. *)
Theorem C4_list_resources_raises_on_a_refused_key
  url uri e w1 w2 st0 out1 st1 out2 st2 :
  reachable st0 ->
  normalize_uri url = Ok uri ->
  AnyUrl_validate uri = Raise e ->
  fetch_and_store_url url w1 st0 = (Ok out1, st1) ->
  fetch_and_store_url url w2 st1 = (Ok out2, st2) ->
  count_occ string_dec (dict_keys (resource_store st2)) uri = 1%nat
  /\ (exists sc md2 res,
        http_get w2 (jina_url url) = Response sc md2
        /\ dict_get uri (resource_store st2) = Some res
        /\ MarkdownResource.markdown res = md2)
  /\ forall w,
       exists e' k,
         list_resources w st2 = (Raise e', st2)
         /\ In k (dict_keys (resource_store st2))
         /\ AnyUrl_validate k = Raise e'
         /\ (resource_store st0 = [] -> k = uri /\ e' = e).
Proof.
  intros Hreach Hn He H1 H2.
  destruct (upsert_replaces_the_entry st0 Hreach) as [_ Htwo].
  destruct (Htwo url w1 w2 out1 st1 out2 st2 H1 H2)
    as (uri' & sc & md2 & res & Hn' & Hg & _ & Hc & Hget & Hmd & _).
  assert (uri' = uri) as -> by congruence.
  split; [assumption|]. split; [now exists sc, md2, res|].
  intros w. rewrite list_resources_eq.
  assert (Hin : In (uri, res) (resource_store st2)).
  { clear - Hget. induction (resource_store st2) as [|[k v] d IH]; [discriminate|].
    cbn [dict_get] in Hget. destruct (String.eqb k uri) eqn:Ek.
    - apply String.eqb_eq in Ek. injection Hget as ->. subst k. now left.
    - right. auto. }
  destruct (mapR_In_Raise
              (fun '(uri, res) =>
                 match AnyUrl_validate uri with
                 | Ok u =>
                     Ok (Resource.Make u (resource_name uri) (resource_description res)
                           "text/markdown")
                 | Raise e => Raise e
                 end) (resource_store st2) (uri, res) e Hin)
    as (e' & [k v] & Hy & Hfy & ->); [now rewrite He|].
  assert (Hk : AnyUrl_validate k = Raise e').
  { destruct (AnyUrl_validate k); [discriminate | congruence]. }
  exists e', k. split; [reflexivity|].
  split; [apply in_map with (f := fst) in Hy; exact Hy|].
  split; [assumption|].
  intros Hempty.
  apply fetch_and_store_url_ok in H1, H2.
  destruct H1 as (? & ? & ? & u1 & _ & _ & _ & Hn1 & _ & ->).
  destruct H2 as (? & ? & ? & u2 & _ & _ & _ & Hn2 & _ & ->).
  assert (u1 = uri) as -> by congruence. assert (u2 = uri) as -> by congruence.
  cbn [resource_store] in Hy. rewrite Hempty in Hy.
  cbn [dict_set] in Hy. rewrite String.eqb_refl in Hy.
  destruct Hy as [Hy|[]]. injection Hy as <- _.
  split; [reflexivity | congruence].
Qed.

(** C9 (identifiers collide).  ['/'], ['.'] and ['_'] all become ['_'], so
    URLs with distinct paths, or with distinct hosts, have the same
    identifier; an upsert of one then replaces the entry an upsert of the
    other stored, under the key they share. *)
Theorem C9_distinct_urls_share_an_entry :
  (normalize_uri "https://a.com/b.c" = Ok "jinamd://a_com_b_c"
   /\ normalize_uri "https://a.com/b/c" = Ok "jinamd://a_com_b_c"
   /\ normalize_uri "https://a.com/b_c" = Ok "jinamd://a_com_b_c"
   /\ normalize_uri "https://a.b/c" = Ok "jinamd://a_b_c"
   /\ normalize_uri "https://a_b/c" = Ok "jinamd://a_b_c")
  /\ forall u1 u2 uri w1 w2 st0 out1 st1 out2 st2,
       normalize_uri u1 = Ok uri ->
       normalize_uri u2 = Ok uri ->
       fetch_and_store_url u1 w1 st0 = (Ok out1, st1) ->
       fetch_and_store_url u2 w2 st1 = (Ok out2, st2) ->
       exists sc1 md1 sc2 md2 res1 res2,
         http_get w1 (jina_url u1) = Response sc1 md1
         /\ http_get w2 (jina_url u2) = Response sc2 md2
         /\ dict_get uri (resource_store st1) = Some res1
         /\ MarkdownResource.markdown res1 = md1
         /\ dict_get uri (resource_store st2) = Some res2
         /\ MarkdownResource.markdown res2 = md2
         /\ dict_keys (resource_store st2) = dict_keys (resource_store st1).
Proof.
  split.
  - repeat split; vm_compute; reflexivity.
  - intros u1 u2 uri w1 w2 st0 out1 st1 out2 st2 Hu1 Hu2 H1 H2.
    destruct (two_upserts u1 u2 uri w1 w2 st0 out1 st1 out2 st2 Hu1 Hu2 H1 H2)
      as (sc1 & md1 & tc1 & sc2 & md2 & tc2 & Hg1 & Hg2 & Hs1 & Hs2 & Hk & _ & _).
    exists sc1, md1, sc2, md2. eexists _, _. repeat split; eauto.
Qed.

End CacheProperties.

(* ===================================================================== *)
(** * What [urlparse] makes of a query string and a fragment              *)
(* ===================================================================== *)

Section UrlFacts.
Context {L : Libraries}.

Lemma find_0 c s :
  Py.find c s 0 =
  match Py.index_of c s with
  | Some k => Z.of_nat k
  | None => -1
  end.
Proof. change 0 with (Z.of_nat 0). now rewrite find_nat. Qed.

Lemma slice_to_nat s k : Py.slice_to s (Z.of_nat k) = Py.take k s.
Proof. rewrite slice_to_take by lia. now rewrite Nat2Z.id. Qed.

Lemma slice_from_nat s k : Py.slice_from s (Z.of_nat k) = Py.drop k s.
Proof. rewrite slice_from_drop by lia. now rewrite Nat2Z.id. Qed.


Lemma geb_of_nat n : (Z.of_nat n >=? 0) = true.
Proof. rewrite Z.geb_leb. apply Z.leb_le. lia. Qed.

(** The earliest of the first ['/'], ['?'] and ['#'], as [_splitnetloc]
    computes it, is where the prefix without delimiters ends. *)
Lemma delim_netloc_length v off :
  let step := fun (c : ascii) (acc : Z) =>
    let w := match Py.index_of c v with
             | Some k => Z.of_nat (off + k)
             | None => -1
             end in
    if w >=? 0 then Z.min acc w else acc in
  step "#"%char (step "?"%char (step "/"%char (Z.of_nat (off + String.length v))))
  = Z.of_nat (off + netloc_length v).
Proof.
  cbv zeta. revert off. induction v as [|a v IH]; intros off.
  - reflexivity.
  - specialize (IH (S off)). cbn [Py.index_of netloc_length String.length].
    destruct (Ascii.eqb a "/"), (Ascii.eqb a "?"), (Ascii.eqb a "#");
      cbn [orb];
      destruct (Py.index_of "/" v), (Py.index_of "?" v), (Py.index_of "#" v);
      cbv beta iota in IH; cbv beta iota;
      rewrite ?geb_of_nat in IH; rewrite ?geb_of_nat;
      change (-1 >=? 0) with false in IH; change (-1 >=? 0) with false;
      cbv beta iota in IH; cbv beta iota;
      lia.
Qed.

(** [_splitnetloc(url, 2)] cuts what follows the two slashes at the first
    delimiter. *)
Lemma splitnetloc_2 a b v :
  Urllib.splitnetloc (String a (String b v)) 2
  = (Py.take (netloc_length v) v, Py.drop (netloc_length v) v).
Proof.
  unfold Urllib.splitnetloc. cbn [fold_left].
  change 2 with (Z.of_nat 2). rewrite !find_nat.
  cbn [Py.drop String.length Nat.min].
  match goal with
  | |- (Py.slice _ _ ?d, Py.slice_from _ ?d) = _ =>
      replace d with (Z.of_nat (2 + netloc_length v))
        by (symmetry; exact (delim_netloc_length v 2))
  end.
  rewrite slice_nat, slice_from_nat. cbn [Py.drop].
  f_equal. f_equal. lia.
Qed.

Lemma netloc_length_le v : (netloc_length v <= String.length v)%nat.
Proof.
  induction v as [|a v IH]; simpl; auto.
  destruct (Ascii.eqb a "/" || Ascii.eqb a "?" || Ascii.eqb a "#"); lia.
Qed.





Lemma split_if_contains c u :
  fst (if Py.contains c u then Py.split1 c u else (u, "")) = fst (Py.split1 c u).
Proof.
  destruct (Py.contains c u) eqn:E; auto.
  apply index_of_None in E. unfold Py.split1. now rewrite E.
Qed.


Lemma path_of_clean r :
  Py.contains "?" r = false -> Py.contains "#" r = false ->
  fst (Py.split1 "?" (fst (Py.split1 "#" r))) = r.
Proof.
  intros Hq Hh. apply index_of_None in Hq, Hh.
  unfold Py.split1. rewrite Hh. cbn [fst]. now rewrite Hq.
Qed.


Lemma prepare_clean c b :
  Py.contains c b = false ->
  Py.contains c
    (fold_left (fun u c => Py.replace c "" u) Urllib.UNSAFE_URL_BYTES_TO_REMOVE
       (Py.lstrip Urllib.C0_CONTROL_OR_SPACE b)) = false.
Proof.
  intros H. cbn [fold_left Urllib.UNSAFE_URL_BYTES_TO_REMOVE].
  now do 3 apply contains_remove; apply contains_lstrip.
Qed.

(** The last steps of [urlsplit], with the path named. *)
Lemma urlsplit_tail scheme netloc u :
  (let '(url, fragment) :=
     if Py.contains "#" u then Py.split1 "#" u else (u, "") in
   let '(url, query) :=
     if Py.contains "?" url then Py.split1 "?" url else (url, "") in
   checknetloc_result <- Urllib.checknetloc netloc ;;
   Ok (Urllib.MkSplit scheme netloc url query fragment))%result
  = match Urllib.checknetloc netloc with
    | Ok _ =>
        let x := if Py.contains "#" u then Py.split1 "#" u else (u, "") in
        let y := if Py.contains "?" (fst x) then Py.split1 "?" (fst x) else (fst x, "") in
        Ok (Urllib.MkSplit scheme netloc (fst (Py.split1 "?" (fst (Py.split1 "#" u))))
              (snd y) (snd x))
    | Raise e => Raise e
    end.
Proof.
  cbv zeta. rewrite <- (split_if_contains "#" u).
  destruct (if Py.contains "#" u then Py.split1 "#" u else (u, "")) as [u1 fragment].
  cbn [fst snd]. rewrite <- (split_if_contains "?" u1).
  destruct (if Py.contains "?" u1 then Py.split1 "?" u1 else (u1, "")) as [u2 query].
  cbn [fst snd]. now destruct (Urllib.checknetloc netloc).
Qed.





End UrlFacts.

(* ===================================================================== *)
(** * The code of [normalize_uri] against the wording of the specification *)
(* ===================================================================== *)

Section NormalizerFacts.
Context {L : Libraries}.




(** [rstrip] looks at the last character first. *)
Lemma rstrip_app_char cs s a :
  Py.rstrip cs (s ++ String a "")
  = if Py.contains a cs then Py.rstrip cs s else s ++ String a "".
Proof.
  induction s as [|b s IH].
  - simpl. now destruct (Py.contains a cs).
  - cbn [append Py.rstrip]. rewrite IH.
    destruct (Py.contains a cs); auto.
    now destruct s.
Qed.






End NormalizerFacts.

(* ===================================================================== *)
(** * Distinct texts with the same fingerprint                            *)
(* ===================================================================== *)

Section Collisions.

(** Whether a value is taken among the first [n] values of [h]. *)
Lemma bounded_search (h : Z -> Z) (v : Z) n :
  0 <= n ->
  (exists i, 0 <= i < n /\ h i = v) \/ (forall i, 0 <= i < n -> h i <> v).
Proof.
  intros Hn. pattern n. apply natlike_ind; [| |exact Hn].
  - right. intros i Hi. lia.
  - intros m Hm [(i & Hi & E)|Hnone].
    + left. exists i. split; [lia|assumption].
    + destruct (Z.eq_dec (h m) v) as [E|E].
      * left. exists m. split; [lia|assumption].
      * right. intros i Hi. destruct (Z.eq_dec i m) as [->|Hne]; auto.
        apply Hnone. lia.
Qed.

(** [n + 1] values below [n] are not all distinct. *)
Lemma pigeonhole n :
  0 <= n ->
  forall h : Z -> Z,
    (forall i, 0 <= i <= n -> 0 <= h i < n) ->
    exists i j, 0 <= i < j /\ j <= n /\ h i = h j.
Proof.
  intros Hn. pattern n. apply natlike_ind; [| |exact Hn].
  - intros h H. specialize (H 0). lia.
  - intros m Hm IH h H. unfold Z.succ in *.
    destruct (bounded_search h (h (m + 1)) (m + 1)) as [(i & Hi & E)|Hnone]; [lia| |].
    + exists i, (m + 1). repeat split; try lia.
    + destruct (IH (fun i => if h i =? m then h (m + 1) else h i))
        as (i & j & Hij & Hj & E).
      * intros i Hi. pose proof (H i). pose proof (H (m + 1)). pose proof (Hnone i).
        destruct (h i =? m) eqn:Em;
          [apply Z.eqb_eq in Em | apply Z.eqb_neq in Em]; lia.
      * exists i, j. repeat split; try lia.
        pose proof (Hnone i). pose proof (Hnone j).
        destruct (h i =? m) eqn:Ei, (h j =? m) eqn:Ej;
          try apply Z.eqb_eq in Ei; try apply Z.eqb_eq in Ej; lia.
Qed.

Lemma number_of_words_range ws :
  Forall (fun w => 0 <= w < 2 ^ 32) ws ->
  0 <= number_of_words ws < 2 ^ (32 * Z.of_nat (List.length ws)).
Proof.
  induction 1 as [|w ws Hw _ IH].
  - cbn. lia.
  - cbn [number_of_words List.length].
    replace (32 * Z.of_nat (S (List.length ws)))
      with (32 + 32 * Z.of_nat (List.length ws)) by lia.
    rewrite Z.pow_add_r by lia.
    set (P := 2 ^ (32 * Z.of_nat (List.length ws))) in *.
    set (N := number_of_words ws) in *.
    assert (2 ^ 32 * (N + 1) <= 2 ^ 32 * P) by (apply Z.mul_le_mono_nonneg_l; lia).
    lia.
Qed.

Lemma number_of_words_inj ws1 ws2 :
  Forall (fun w => 0 <= w < 2 ^ 32) ws1 ->
  Forall (fun w => 0 <= w < 2 ^ 32) ws2 ->
  List.length ws1 = List.length ws2 ->
  number_of_words ws1 = number_of_words ws2 ->
  ws1 = ws2.
Proof.
  intros H1. revert ws2. induction H1 as [|w1 ws1 Hw1 _ IH]; intros ws2 H2 Hlen E.
  - now destruct ws2.
  - destruct H2 as [|w2 ws2 Hw2 H2]; [discriminate|].
    cbn [number_of_words] in E. injection Hlen as Hlen.
    set (N1 := number_of_words ws1) in *. set (N2 := number_of_words ws2) in *.
    assert (N1 = N2 /\ w1 = w2) as [HN ->] by lia.
    f_equal. now apply IH.
Qed.

Lemma text_of_pos_inj p q : text_of_pos p = text_of_pos q -> p = q.
Proof.
  revert q. induction p as [p IH|p IH|]; intros [q|q|]; simpl;
    try discriminate; auto; intros [= E]; f_equal; auto.
Qed.

(** SHA-256 maps infinitely many texts to [2^256] digests: two distinct
    texts have the same fingerprint. *)
Lemma compute_hash_collision :
  exists c1 c2, c1 <> c2 /\ compute_hash c1 = compute_hash c2.
Proof.
  destruct (pigeonhole (2 ^ 256) ltac:(lia)
              (fun i => number_of_words
                          (Sha256.hash_words
                             (encode_utf8 (text_of_pos (Z.to_pos (i + 1)))))))
    as (i & j & Hij & Hj & E).
  - intros i Hi.
    destruct (hash_words_chaining (encode_utf8 (text_of_pos (Z.to_pos (i + 1)))))
      as [Hlen Hall].
    pose proof (number_of_words_range _ Hall) as Hr. rewrite Hlen in Hr.
    exact Hr.
  - exists (text_of_pos (Z.to_pos (i + 1))), (text_of_pos (Z.to_pos (j + 1))).
    split.
    + intros Ht. apply text_of_pos_inj, Z2Pos.inj in Ht; lia.
    + destruct (hash_words_chaining (encode_utf8 (text_of_pos (Z.to_pos (i + 1)))))
        as [Hl1 Ha1].
      destruct (hash_words_chaining (encode_utf8 (text_of_pos (Z.to_pos (j + 1)))))
        as [Hl2 Ha2].
      unfold compute_hash, Sha256.hexdigest, Sha256.digest.
      rewrite (number_of_words_inj _ _ Ha1 Ha2 (eq_trans Hl1 (eq_sym Hl2)) E).
      reflexivity.
Qed.

End Collisions.

(* ===================================================================== *)
(** * Properties of the identifier                                        *)
(* ===================================================================== *)

Section NormalizerProperties.
Context {L : Libraries}.



End NormalizerProperties.

(* ===================================================================== *)
(** * Where the specification and the code part                           *)
(* ===================================================================== *)


(* ===================================================================== *)
(** * The properties on a concrete run                                    *)
(* ===================================================================== *)


(** The conversion service answers 503 while an entry is stored: the upsert
    raises and the entry stays. *)
Lemma C2_witness :
  fetch_jina_markdown docs_url world_down state_docs
    = (Raise (HTTPStatusError 503),
       MkState (resource_store state_docs) (jina_url docs_url :: outbound state_docs))
  /\ exists st',
       @fetch_and_store_url toy_libraries docs_url world_down state_docs
         = (Raise (HTTPStatusError 503), st')
       /\ resource_store st' = resource_store state_docs
       /\ dict_get docs_key (resource_store st') = Some (entry_hi noon).
Proof.
  assert (H : fetch_jina_markdown docs_url world_down state_docs
              = (Raise (HTTPStatusError 503),
                 MkState (resource_store state_docs)
                   (jina_url docs_url :: outbound state_docs)))
    by (vm_compute; reflexivity).
  split; [exact H|].
  destruct (@C2_fetch_error_leaves_store_unchanged toy_libraries _ _ _ _ _ H)
    as (st' & E & Hs & Hk & _).
  exists st'. repeat split; try assumption.
  rewrite Hk. reflexivity.
Defined.

(** Two fetches of [docs_url]: one entry, one listed resource, and a read
    returns the text with its footer. *)
Lemma upsert_replaces_the_entry_on_docs :
  @reachable toy_libraries initial_state
  /\ @fetch_and_store_url toy_libraries docs_url (world_of "# Hi" noon) initial_state
       = (Ok [item_hi noon true], state_docs)
  /\ @fetch_and_store_url toy_libraries docs_url (world_of "# Hi" later) state_docs
       = (Ok [item_hi later false], state_docs_later)
  /\ NoDup (dict_keys (resource_store initial_state))
  /\ exists uri res,
       @normalize_uri toy_libraries docs_url = Ok uri
       /\ count_occ string_dec (dict_keys (resource_store state_docs_later)) uri = 1%nat
       /\ dict_get uri (resource_store state_docs_later) = Some res
       /\ MarkdownResource.markdown res = "# Hi"
       /\ (AnyUrl.str docs_id = uri ->
           read_resource docs_id (world_of "" noon) state_docs_later
             = (Ok ("# Hi" ++ footer res), state_docs_later)).
Proof.
  assert (H1 : @fetch_and_store_url toy_libraries docs_url (world_of "# Hi" noon)
                 initial_state = (Ok [item_hi noon true], state_docs))
    by (vm_compute; reflexivity).
  assert (H2 : @fetch_and_store_url toy_libraries docs_url (world_of "# Hi" later)
                 state_docs = (Ok [item_hi later false], state_docs_later))
    by (vm_compute; reflexivity).
  split; [constructor|]. split; [exact H1|]. split; [exact H2|].
  destruct (@upsert_replaces_the_entry toy_libraries initial_state
              (@reachable_init toy_libraries)) as [Hnd Htwo].
  split; [exact Hnd|].
  destruct (Htwo _ _ _ _ _ _ _ H1 H2)
    as (uri & sc & md2 & res & Hn & Hg & _ & Hc & Hget & Hmd & _ & _ & Hread).
  exists uri, res. repeat split; try assumption.
  - rewrite Hmd. cbn in Hg. now injection Hg as _ <-.
  - intros Hid. rewrite (Hread docs_id (world_of "" noon) eq_refl Hid).
    cbn in Hg. now injection Hg as _ <-.
Defined.

(** Two fetches of [http://localhost:8000/a.b/], each answered with 200:
    the store holds one entry, under [jinamd://localhost:8000_a_b], and
    listing raises, the port [8000_a_b] of the key being refused. *)
Lemma C4_witness :
  @normalize_uri port_checking_libraries local_url = Ok local_key
  /\ port_checking_AnyUrl_validate local_key
     = Raise (ValidationError "invalid port number")
  /\ (exists out1 out2,
        @fetch_and_store_url port_checking_libraries local_url
          (world_of "# Hi" noon) initial_state = (Ok out1, state_local)
        /\ @fetch_and_store_url port_checking_libraries local_url
             (world_of "# Hi again" later) state_local = (Ok out2, state_local_later))
  /\ count_occ string_dec (dict_keys (resource_store state_local_later)) local_key
     = 1%nat
  /\ (exists res, dict_get local_key (resource_store state_local_later) = Some res
                  /\ MarkdownResource.markdown res = "# Hi again")
  /\ forall w,
       @list_resources port_checking_libraries w state_local_later
       = (Raise (ValidationError "invalid port number"), state_local_later).
Proof.
  assert (Hn : @normalize_uri port_checking_libraries local_url = Ok local_key)
    by (vm_compute; reflexivity).
  assert (He : @AnyUrl_validate port_checking_libraries local_key
               = Raise (ValidationError "invalid port number"))
    by (vm_compute; reflexivity).
  assert (H1 : exists out1,
             @fetch_and_store_url port_checking_libraries local_url
               (world_of "# Hi" noon) initial_state = (Ok out1, state_local))
    by (vm_compute; eauto).
  assert (H2 : exists out2,
             @fetch_and_store_url port_checking_libraries local_url
               (world_of "# Hi again" later) state_local
             = (Ok out2, state_local_later))
    by (vm_compute; eauto).
  destruct H1 as [out1 H1]. destruct H2 as [out2 H2].
  split; [exact Hn|]. split; [exact He|].
  split; [exists out1, out2; split; assumption|].
  destruct (@C4_list_resources_raises_on_a_refused_key port_checking_libraries
              local_url local_key _ (world_of "# Hi" noon) (world_of "# Hi again" later)
              initial_state out1 state_local out2 state_local_later
              (@reachable_init port_checking_libraries) Hn He H1 H2)
    as (Hc & (sc & md2 & res & Hg & Hget & Hmd) & Hlist).
  split; [exact Hc|]. split.
  - exists res. split; [exact Hget|]. rewrite Hmd.
    cbn in Hg. now injection Hg as _ <-.
  - intros w. destruct (Hlist w) as (e' & k & Hl & _ & _ & Hsame).
    destruct (Hsame eq_refl) as [_ ->]. exact Hl.
Defined.

(** After one fetch, the stored hash is the hash of ["# Hi"]. *)
Lemma C5_witness :
  @reachable toy_libraries state_docs
  /\ In (docs_key, entry_hi noon) (resource_store state_docs)
  /\ MarkdownResource.content_hash (entry_hi noon) = compute_hash "# Hi"
  /\ String.length (MarkdownResource.content_hash (entry_hi noon)) = 64%nat.
Proof.
  assert (Hr : @reachable toy_libraries state_docs).
  { change state_docs
      with (@handle toy_libraries (FetchAndStore docs_url) (world_of "# Hi" noon)
              initial_state).
    apply reachable_step, reachable_init. }
  assert (Hin : In (docs_key, entry_hi noon) (resource_store state_docs))
    by (left; reflexivity).
  split; [exact Hr|]. split; [exact Hin|].
  destruct (@C5_stored_hash_is_fingerprint_of_stored_text toy_libraries _ _ _ Hr Hin)
    as (H1 & _ & H3 & _).
  split; [exact H1 | exact H3].
Defined.

(** Reading before anything was fetched, and with another scheme. *)
Lemma C6_witness :
  fst (read_resource docs_id (world_of "" noon) initial_state)
    = Raise (ValueError ("Resource not found: " ++ docs_key))
  /\ fst (read_resource (AnyUrl.Make "https" "https://example.com/") (world_of "" noon)
            state_docs)
       = Raise (ValueError "Unsupported URI scheme: https")
  /\ exists text, fst (read_resource docs_id (world_of "" noon) state_docs) = Ok text.
Proof.
  split; [|split].
  - destruct (C6_read_resource_outcomes docs_id (world_of "" noon)
                initial_state) as (_ & _ & _ & H).
    apply H. reflexivity.
  - destruct (C6_read_resource_outcomes
                (AnyUrl.Make "https" "https://example.com/") (world_of "" noon)
                state_docs) as (H & _).
    apply H. discriminate.
  - destruct (C6_read_resource_outcomes docs_id (world_of "" noon)
                state_docs) as (_ & _ & H & _).
    apply H. split; [reflexivity|]. exists (entry_hi noon). reflexivity.
Defined.

(** The text a read returns after one fetch. *)
Lemma C7_witness :
  AnyUrl.scheme docs_id = "jinamd"
  /\ dict_get (AnyUrl.str docs_id) (resource_store state_docs) = Some (entry_hi noon)
  /\ read_resource docs_id (world_of "" later) state_docs
     = (Ok ("# Hi" ++ nl ++ nl ++ "---" ++ nl
            ++ "_Estimated tokens_: 4" ++ nl
            ++ "_Content hash_: `38c64a17e33e...`" ++ nl
            ++ "_Fetched at_: 2025-03-09T12:00:00 UTC"),
        state_docs).
Proof.
  split; [reflexivity|]. split; [reflexivity|].
  destruct (@C7_read_appends_footer_and_keeps_store toy_libraries docs_id
              (world_of "" later) state_docs (entry_hi noon) eq_refl eq_refl)
    as (H & _).
  rewrite H. vm_compute. reflexivity.
Defined.


(** A fetch of [https://a.com/b.c], then one of [https://a.com/b/c]: the
    second text is stored where the first was. *)
Lemma C9_witness :
  exists st1 st2 out1 out2 res2,
    @fetch_and_store_url toy_libraries "https://a.com/b.c" (world_of "one" noon)
      initial_state = (Ok out1, st1)
    /\ @fetch_and_store_url toy_libraries "https://a.com/b/c" (world_of "two" later)
         st1 = (Ok out2, st2)
    /\ dict_get "jinamd://a_com_b_c" (resource_store st2) = Some res2
    /\ MarkdownResource.markdown res2 = "two"
    /\ dict_keys (resource_store st2) = dict_keys (resource_store st1).
Proof.
  destruct (@C9_distinct_urls_share_an_entry toy_libraries) as [(N1 & N2 & _) Hshare].
  destruct (@fetch_and_store_url_run toy_libraries "https://a.com/b.c"
              (world_of "one" noon) initial_state 200 "one" 3 "jinamd://a_com_b_c")
    as (out1 & st1 & H1); try reflexivity; try lia; try assumption.
  destruct (@fetch_and_store_url_run toy_libraries "https://a.com/b/c"
              (world_of "two" later) st1 200 "two" 3 "jinamd://a_com_b_c")
    as (out2 & st2 & H2); try reflexivity; try lia; try assumption.
  destruct (Hshare _ _ _ _ _ _ _ _ _ _ N1 N2 H1 H2)
    as (sc1 & md1 & sc2 & md2 & res1 & res2 & _ & Hg2 & _ & _ & Hs2 & Hm2 & Hk).
  exists st1, st2, out1, out2, res2. repeat split; try assumption.
  rewrite Hm2. cbn in Hg2. now injection Hg2 as _ <-.
Defined.

(** A call without arguments, and a call of an unknown tool. *)
Lemma C10_witness :
  (@call_tool toy_libraries "fetch_markdown" None world_down state_docs
     = (Raise (ValueError "Missing arguments"), state_docs))
  /\ exists msg,
       @call_tool toy_libraries "fetch" (Some [("url", JString docs_url)])
         (world_of "# Hi" later) state_docs
       = (Raise (ValueError msg), state_docs)
       /\ msg = "Unknown tool: fetch".
Proof.
  split.
  - destruct (@C10_call_tool_rejects_before_fetch toy_libraries "fetch_markdown" None
                world_down state_docs (or_introl eq_refl))
      as (msg & E & Hmsg & _).
    rewrite <- (Hmsg (or_introl eq_refl)). exact E.
  - destruct (@C10_call_tool_rejects_before_fetch toy_libraries "fetch"
                (Some [("url", JString docs_url)]) (world_of "# Hi" later) state_docs)
      as (msg & E & _ & [Hmsg|Hmsg] & _).
    + right. right. discriminate.
    + rewrite Hmsg in E. vm_compute in E. discriminate.
    + exists msg. split; [exact E | exact Hmsg].
Defined.

(* ===================================================================== *)
(** * More on the upsert: requests sent, entries kept, what is returned   *)
(* ===================================================================== *)

Section UpsertProperties.
Context {L : Libraries}.

(** The two ways an upsert ends: it raises, the store as it was and one call
    of [client.get] logged; or it returns, one call logged and one entry
    assigned. *)
Lemma fetch_and_store_url_cases url w st :
  (exists e,
     fetch_and_store_url url w st
     = (Raise e, MkState (resource_store st) (jina_url url :: outbound st)))
  \/ (exists sc md tc uri,
        http_get w (jina_url url) = Response sc md
        /\ 200 <= sc <= 299
        /\ estimate_tokens md "gpt-4" = Ok tc
        /\ normalize_uri url = Ok uri
        /\ fetch_and_store_url url w st
           = (Ok [ returned_item url uri md tc (utcnow w)
                     match dict_get uri (resource_store st) with
                     | Some old =>
                         negb (String.eqb (MarkdownResource.content_hash old)
                                 (compute_hash md))
                     | None => true
                     end ],
              MkState (dict_set uri (stored_entry md tc (utcnow w)) (resource_store st))
                (jina_url url :: outbound st))).
Proof.
  destruct (fetch_and_store_url url w st) as [[out|e] st'] eqn:E.
  - right. apply fetch_and_store_url_ok in E.
    destruct E as (sc & md & tc & uri & Hg & Hsc & Htc & Hn & -> & ->).
    exists sc, md, tc, uri. repeat split; auto; lia.
  - left. exists e. f_equal.
    rewrite fetch_and_store_url_eq, fetch_jina_markdown_eq in E. cbv zeta in E.
    destruct (http_get w (jina_url url)) as [sc text|what].
    + destruct ((200 <=? sc) && (sc <=? 299)).
      * destruct (estimate_tokens text "gpt-4").
        -- destruct (normalize_uri url); [discriminate|]. now injection E as _ <-.
        -- now injection E as _ <-.
      * now injection E as _ <-.
    + now injection E as _ <-.
Qed.

(** What a request does to the state: nothing; or [client.get] is called
    once and the store stays; or [client.get] is called once and one entry is
    assigned, under the identifier of the URL requested, with the token
    estimate of the text received. *)
Lemma handle_cases r w st :
  handle r w st = st
  \/ (exists url,
        handle r w st = MkState (resource_store st) (jina_url url :: outbound st))
  \/ (exists url sc md tc uri,
        http_get w (jina_url url) = Response sc md
        /\ estimate_tokens md "gpt-4" = Ok tc
        /\ normalize_uri url = Ok uri
        /\ handle r w st
           = MkState (dict_set uri (stored_entry md tc (utcnow w)) (resource_store st))
               (jina_url url :: outbound st)).
Proof.
  assert (Hup : forall url,
    (exists url',
       snd (fetch_and_store_url url w st)
       = MkState (resource_store st) (jina_url url' :: outbound st))
    \/ (exists url' sc md tc uri,
          http_get w (jina_url url') = Response sc md
          /\ estimate_tokens md "gpt-4" = Ok tc
          /\ normalize_uri url' = Ok uri
          /\ snd (fetch_and_store_url url w st)
             = MkState (dict_set uri (stored_entry md tc (utcnow w)) (resource_store st))
                 (jina_url url' :: outbound st))).
  { intros url.
    destruct (fetch_and_store_url_cases url w st)
      as [(e & ->)|(sc & md & tc & uri & Hg & _ & Htc & Hn & ->)].
    - left. now exists url.
    - right. exists url, sc, md, tc, uri. auto. }
  destruct r as [name arguments|url| |uri]; unfold handle.
  - rewrite call_tool_eq.
    destruct arguments as [[|a args]|]; auto.
    destruct (String.eqb name "fetch_markdown"); auto.
    destruct (URLRequest (a :: args)); auto.
  - right. apply Hup.
  - left. apply list_resources_state.
  - left. now rewrite read_resource_eq.
Qed.

(** X1.  An upsert is all or nothing, whatever makes it fail.  It raises
    [e] exactly in one of four cases, tried in the order of the source: the
    call of [client.get] raised ([e] names what it raised); the response has
    a status outside 200..299 ([e] is the status error); the tokenizer
    raised [e] on the text received; the URL parser raised [e] on the URL.
    In each of them the store after the call is the store before it: no
    entry is added, replaced or stamped. *)
Theorem X1_upsert_is_all_or_nothing url w st e :
  (fst (fetch_and_store_url url w st) = Raise e
   <-> (exists what,
          http_get w (jina_url url) = RequestFailed what /\ e = RequestError what)
       \/ (exists sc text,
             http_get w (jina_url url) = Response sc text
             /\ ~ 200 <= sc <= 299 /\ e = HTTPStatusError sc)
       \/ (exists sc text,
             http_get w (jina_url url) = Response sc text
             /\ 200 <= sc <= 299 /\ estimate_tokens text "gpt-4" = Raise e)
       \/ (exists sc text tc,
             http_get w (jina_url url) = Response sc text
             /\ 200 <= sc <= 299 /\ estimate_tokens text "gpt-4" = Ok tc
             /\ normalize_uri url = Raise e))
  /\ (fst (fetch_and_store_url url w st) = Raise e ->
      resource_store (snd (fetch_and_store_url url w st)) = resource_store st
      /\ forall k,
           dict_get k (resource_store (snd (fetch_and_store_url url w st)))
           = dict_get k (resource_store st)).
Proof.
  split.
  - rewrite fetch_and_store_url_eq, fetch_jina_markdown_eq. cbv zeta.
    destruct (http_get w (jina_url url)) as [sc text|what].
    + destruct ((200 <=? sc) && (sc <=? 299)) eqn:Hsc.
      * apply andb_true_iff in Hsc. destruct Hsc as [Hlo Hhi].
        apply Z.leb_le in Hlo, Hhi.
        destruct (estimate_tokens text "gpt-4") as [tc|e1] eqn:Htc.
        -- destruct (normalize_uri url) as [uri|e2] eqn:Hn; cbn [fst].
           ++ split; [discriminate|].
              intros [H|[H|[H|H]]]; break_hyps; try discriminate; try congruence.
              match goal with E : Response _ _ = Response _ _ |- _ =>
                injection E as <- <- end. lia.
           ++ split.
              ** intros [= <-]. right. right. right. exists sc, text, tc.
                 repeat split; auto.
              ** intros [H|[H|[H|H]]]; break_hyps; try discriminate; try congruence.
                 match goal with E : Response _ _ = Response _ _ |- _ =>
                   injection E as <- <- end. lia.
        -- cbn [fst]. split.
           ++ intros [= <-]. right. right. left. exists sc, text. repeat split; auto.
           ++ intros [H|[H|[H|H]]]; break_hyps; try discriminate;
                match goal with E : Response _ _ = Response _ _ |- _ =>
                  injection E as <- <- end; try congruence; lia.
      * assert (Hout : ~ 200 <= sc <= 299).
        { intros [Hlo Hhi]. apply andb_false_iff in Hsc.
          destruct Hsc as [Hsc|Hsc]; apply Z.leb_gt in Hsc; lia. }
        cbn [fst]. split.
        -- intros [= <-]. right. left. exists sc, text. repeat split; auto.
        -- intros [H|[H|[H|H]]]; break_hyps; try discriminate;
             match goal with E : Response _ _ = Response _ _ |- _ =>
               injection E as <- <- end; try congruence; tauto.
    + cbn [fst]. split.
      * intros [= <-]. left. now exists what.
      * intros [H|[H|[H|H]]]; break_hyps; try discriminate.
        match goal with E : RequestFailed _ = RequestFailed _ |- _ =>
          injection E as <- end. congruence.
  - destruct (fetch_and_store_url_cases url w st)
      as [(e' & ->)|(sc & md & tc & uri & _ & _ & _ & _ & ->)];
      cbn [fst snd resource_store]; [auto | discriminate].
Qed.

(** X2.  A successful upsert touches one identifier: every other identifier
    has the entry it had, the keys already in the store keep their order,
    and the identifier of the URL is added at the end when it is new. *)
Theorem X2_upsert_touches_one_identifier url w st out st' :
  fetch_and_store_url url w st = (Ok out, st') ->
  exists uri,
    normalize_uri url = Ok uri
    /\ (forall k, k <> uri ->
          dict_get k (resource_store st') = dict_get k (resource_store st))
    /\ dict_keys (resource_store st')
       = (if dict_contains uri (resource_store st)
          then dict_keys (resource_store st)
          else (dict_keys (resource_store st) ++ [uri])%list).
Proof.
  intros H. apply fetch_and_store_url_ok in H.
  destruct H as (sc & md & tc & uri & _ & _ & _ & Hn & _ & ->).
  exists uri. cbn [resource_store]. split; [assumption|]. split.
  - intros k Hk. now apply dict_get_set_other.
  - apply dict_keys_set.
Qed.

(** X3.  What a successful upsert returns describes what it stored: one
    item, whose metadata carry the URL asked, its identifier, the
    fingerprint of the returned text and the fetch time; the store holds
    under that identifier an entry with the same text, count, hash and time;
    and a read of the identifier returns the text followed by a footer made
    of those metadata. *)
Theorem X3_upsert_result_matches_store_and_read url w st out st' :
  fetch_and_store_url url w st = (Ok out, st') ->
  exists item,
    out = [item]
    /\ TextContent.type item = "text"
    /\ MarkdownMeta.url (TextContent.meta item) = url
    /\ normalize_uri url = Ok (MarkdownMeta.uri (TextContent.meta item))
    /\ MarkdownMeta.content_hash (TextContent.meta item)
       = compute_hash (TextContent.text item)
    /\ MarkdownMeta.fetched_at (TextContent.meta item) = Datetime.isoformat (utcnow w)
    /\ dict_get (MarkdownMeta.uri (TextContent.meta item)) (resource_store st')
       = Some (MarkdownResource.Make (TextContent.text item)
                 (MarkdownMeta.token_count (TextContent.meta item))
                 (MarkdownMeta.content_hash (TextContent.meta item))
                 (utcnow w))
    /\ (forall id w',
          AnyUrl.scheme id = "jinamd" ->
          AnyUrl.str id = MarkdownMeta.uri (TextContent.meta item) ->
          read_resource id w' st'
          = (Ok (TextContent.text item
                 ++ nl ++ nl ++ "---" ++ nl
                 ++ "_Estimated tokens_: "
                 ++ Py.str_of_int (MarkdownMeta.token_count (TextContent.meta item)) ++ nl
                 ++ "_Content hash_: `"
                 ++ Py.take 12 (MarkdownMeta.content_hash (TextContent.meta item))
                 ++ "...`" ++ nl
                 ++ "_Fetched at_: " ++ MarkdownMeta.fetched_at (TextContent.meta item)
                 ++ " UTC"),
             st')).
Proof.
  intros H. apply fetch_and_store_url_ok in H.
  destruct H as (sc & md & tc & uri & _ & _ & _ & Hn & -> & ->).
  eexists. split; [reflexivity|].
  cbn [TextContent.type TextContent.text TextContent.meta MarkdownMeta.url MarkdownMeta.uri
       MarkdownMeta.content_hash MarkdownMeta.fetched_at MarkdownMeta.token_count
       resource_store].
  repeat split; auto.
  - apply dict_get_set_same.
  - intros id w' Hs Hid. rewrite read_resource_eq.
    apply String.eqb_eq in Hs. rewrite Hs, Hid. cbn [resource_store].
    rewrite dict_get_set_same. unfold footer.
    cbn [MarkdownResource.markdown MarkdownResource.token_count
         MarkdownResource.content_hash MarkdownResource.fetched_at].
    now rewrite slice_to_take by lia.
Qed.

End UpsertProperties.

(* ===================================================================== *)
(** * The shape of an identifier                                          *)
(* ===================================================================== *)

Section IdentifierShape.
Context {L : Libraries}.

Lemma replace_char_length old c s :
  String.length (Py.replace old (String c "") s) = String.length s.
Proof.
  induction s as [|a s IH]; auto.
  cbn [Py.replace]. destruct (Ascii.eqb a old); cbn; now rewrite IH.
Qed.

Lemma replace_char_removes old c s :
  Ascii.eqb c old = false -> Py.contains old (Py.replace old (String c "") s) = false.
Proof.
  intros Hc. induction s as [|a s IH]; auto.
  cbn [Py.replace]. destruct (Ascii.eqb a old) eqn:E; cbn; [now rewrite Hc|now rewrite E].
Qed.

Lemma replace_char_keeps_absent x old c s :
  Ascii.eqb c x = false -> Py.contains x s = false ->
  Py.contains x (Py.replace old (String c "") s) = false.
Proof.
  intros Hc. induction s as [|a s IH]; auto.
  cbn [Py.replace Py.contains]. destruct (Ascii.eqb a x) eqn:E; [discriminate|].
  intros H. destruct (Ascii.eqb a old); cbn; [rewrite Hc|rewrite E]; auto.
Qed.

Lemma str_or_length x : (0 < String.length (str_or x "_"))%nat.
Proof. destruct x; cbn; lia. Qed.

(** X4.  An identifier is [jinamd://] followed by a key that is never
    empty, holds no ['/'] and no ['.'], and has one character for each
    character of the netloc and of the path without its trailing slashes
    (or of the placeholder): nothing is cut. *)
Theorem X4_identifier_shape url k :
  normalize_uri url = Ok k ->
  exists key parsed,
    k = "jinamd://" ++ key
    /\ Urllib.urlparse url = Ok parsed
    /\ (0 < String.length key)%nat
    /\ Py.contains "/" key = false
    /\ Py.contains "." key = false
    /\ String.length key
       = (String.length (Urllib.netloc parsed)
          + Nat.max 1 (String.length (Py.rstrip "/" (Urllib.path parsed))))%nat.
Proof.
  unfold normalize_uri.
  destruct (Urllib.urlparse url) as [p|e]; cbn [bindR]; [|discriminate].
  intros [= <-].
  exists (Py.replace "." "_" (Py.replace "/" "_" (Urllib.netloc p
            ++ str_or (Py.rstrip "/" (Urllib.path p)) "_"))), p.
  assert (Hlen : String.length
            (Py.replace "." "_" (Py.replace "/" "_" (Urllib.netloc p
               ++ str_or (Py.rstrip "/" (Urllib.path p)) "_")))
          = (String.length (Urllib.netloc p)
             + Nat.max 1 (String.length (Py.rstrip "/" (Urllib.path p))))%nat).
  { rewrite !replace_char_length, length_app. f_equal.
    destruct (Py.rstrip "/" (Urllib.path p)); cbn; lia. }
  split; [reflexivity|]. split; [reflexivity|]. split; [lia|]. split; [|split].
  - apply replace_char_keeps_absent; [reflexivity|].
    apply replace_char_removes. reflexivity.
  - apply replace_char_removes. reflexivity.
  - exact Hlen.
Qed.

End IdentifierShape.

(* ===================================================================== *)
(** * What every run of the server keeps                                  *)
(* ===================================================================== *)

Section RunProperties.
Context {L : Libraries}.

Lemma reachable_run rs st : reachable st -> reachable (run rs st).
Proof.
  revert st. induction rs as [|[r w] rs IH]; intros st H; cbn [run]; auto.
  apply IH. now apply reachable_step.
Qed.

Lemma dict_set_length {V} (d : Dict V) k v :
  (List.length (dict_set k v d) <= S (List.length d))%nat.
Proof.
  induction d as [|[k' v'] d IH]; cbn [dict_set List.length]; [lia|].
  destruct (String.eqb k' k); cbn [List.length]; lia.
Qed.

Lemma dict_get_set_Some {V} (d : Dict V) k v k0 v0 :
  dict_get k0 d = Some v0 -> exists v1, dict_get k0 (dict_set k v d) = Some v1.
Proof.
  intros H. destruct (string_dec k0 k) as [->|Hne].
  - rewrite dict_get_set_same. eauto.
  - rewrite dict_get_set_other by assumption. eauto.
Qed.

(** One request keeps every entry's identifier, in place. *)
Lemma handle_keeps r w st :
  (exists l, dict_keys (resource_store (handle r w st))
             = (dict_keys (resource_store st) ++ l)%list)
  /\ (forall k res, dict_get k (resource_store st) = Some res ->
        exists res', dict_get k (resource_store (handle r w st)) = Some res').
Proof.
  destruct (handle_cases r w st)
    as [->|[(url & ->)|(url & sc & md & tc & uri & _ & _ & _ & ->)]];
    cbn [resource_store].
  - split; [exists []; now rewrite app_nil_r | eauto].
  - split; [exists []; now rewrite app_nil_r | eauto].
  - split.
    + rewrite dict_keys_set. destruct (dict_contains uri (resource_store st)).
      * exists []. now rewrite app_nil_r.
      * now exists [uri].
    + intros k res H. eapply dict_get_set_Some; eauto.
Qed.

(** X5.  Nothing is ever removed or moved: after any sequence of requests,
    whatever they return or raise, an identifier that had an entry still has
    one, and the keys the store had are still its first keys, in the same
    order. *)
Theorem X5_entries_are_never_removed rs st k res :
  dict_get k (resource_store st) = Some res ->
  (exists res', dict_get k (resource_store (run rs st)) = Some res')
  /\ exists l, dict_keys (resource_store (run rs st))
               = (dict_keys (resource_store st) ++ l)%list.
Proof.
  revert st res. induction rs as [|[r w] rs IH]; intros st res H; cbn [run].
  - split; [eauto | exists []; now rewrite app_nil_r].
  - destruct (handle_keeps r w st) as [[l1 Hl1] Hk].
    destruct (Hk k res H) as [res1 H1].
    destruct (IH _ _ H1) as [Hget [l2 Hl2]].
    split; [assumption|].
    exists (l1 ++ l2)%list. now rewrite Hl2, Hl1, List.app_assoc.
Qed.

(** X6.  In every state of a run, each stored entry came from a fetch: its
    key is the identifier of a URL whose page was requested from
    [https://r.jina.ai/], its token count is the estimate of its text, and
    that count is not negative. *)
Theorem X6_entries_come_from_fetches st k res :
  reachable st ->
  In (k, res) (resource_store st) ->
  (exists url,
     normalize_uri url = Ok k
     /\ In ("https://r.jina.ai/" ++ url) (outbound st))
  /\ estimate_tokens (MarkdownResource.markdown res) "gpt-4"
     = Ok (MarkdownResource.token_count res)
  /\ 0 <= MarkdownResource.token_count res.
Proof.
  intros Hreach. revert k res.
  induction Hreach as [|st r w _ IH]; intros k res Hin; [destruct Hin|].
  destruct (handle_cases r w st)
    as [E|[(url & E)|(url & sc & md & tc & uri & Hg & Htc & Hn & E)]];
    rewrite E in Hin |- *; cbn [resource_store outbound] in Hin |- *.
  - now apply IH.
  - destruct (IH _ _ Hin) as ((u & Hu & Hreq) & Ht).
    split; [exists u; split; [assumption | now right] | exact Ht].
  - apply dict_set_In in Hin. destruct Hin as [[-> ->]|Hin].
    + split; [exists url; split; [assumption | now left]|].
      cbn [stored_entry MarkdownResource.markdown MarkdownResource.token_count].
      split; [assumption|].
      unfold estimate_tokens in Htc.
      destruct (match encoding_for_model "gpt-4" with
                | Raise (KeyError _) => get_encoding "cl100k_base"
                | r => r
                end) as [enc|]; cbn [bindR] in Htc; [|discriminate].
      destruct (encode enc md) as [toks|]; cbn [bindR] in Htc; [|discriminate].
      injection Htc as <-. lia.
    + destruct (IH _ _ Hin) as ((u & Hu & Hreq) & Ht).
      split; [exists u; split; [assumption | now right] | exact Ht].
Qed.

End RunProperties.

(* ===================================================================== *)
(** * The protocol handlers                                               *)
(* ===================================================================== *)

Section HandlerProperties.
Context {L : Libraries}.

(** X8.  A [fetch_markdown] call validates its arguments before it fetches.
    When the arguments have no ["url"], or one that is not a string, or one
    that the URL validation refuses, the call raises the validation error
    and the state is untouched: nothing was requested.  Otherwise the call
    is an upsert of the validated URL, as its string. *)
Theorem X8_call_tool_validates_then_upserts arguments w st :
  arguments <> [] ->
  (forall e, URLRequest arguments = Raise e ->
     call_tool "fetch_markdown" (Some arguments) w st = (Raise e, st))
  /\ (forall u, URLRequest arguments = Ok u ->
        call_tool "fetch_markdown" (Some arguments) w st
        = fetch_and_store_url (AnyUrl.str u) w st)
  /\ (dict_get "url" arguments = None ->
      exists msg,
        call_tool "fetch_markdown" (Some arguments) w st
        = (Raise (ValidationError msg), st))
  /\ (forall v, dict_get "url" arguments = Some v ->
        (forall s, v <> JString s) ->
        exists msg,
          call_tool "fetch_markdown" (Some arguments) w st
          = (Raise (ValidationError msg), st))
  /\ (forall s e, dict_get "url" arguments = Some (JString s) ->
        AnyUrl_validate s = Raise e ->
        call_tool "fetch_markdown" (Some arguments) w st = (Raise e, st)).
Proof.
  intros Hne. rewrite call_tool_eq.
  destruct arguments as [|a args]; [contradiction|].
  change (String.eqb "fetch_markdown" "fetch_markdown") with true. cbv iota.
  unfold URLRequest.
  split; [intros e ->; reflexivity|].
  split; [intros u ->; reflexivity|].
  split; [intros ->; eauto|].
  split.
  - intros v -> Hv. destruct v; eauto. exfalso. eapply Hv. reflexivity.
  - intros s e -> ->. reflexivity.
Qed.

(** [mapR] returns one result per element, in order; it raises what the
    first failing element raises. *)
Lemma mapR_Forall2 {A B} (f : A -> Result B) l rs :
  mapR f l = Ok rs -> Forall2 (fun x y => f x = Ok y) l rs.
Proof.
  revert rs. induction l as [|x l IH]; intros rs; cbn [mapR].
  - intros [= <-]. constructor.
  - destruct (f x) as [y|] eqn:Hy; [|discriminate].
    destruct (mapR f l) as [ys|]; [|discriminate].
    intros [= <-]. constructor; auto.
Qed.

Lemma mapR_Raise {A B} (f : A -> Result B) l e :
  mapR f l = Raise e -> exists x, In x l /\ f x = Raise e.
Proof.
  induction l as [|x l IH]; cbn [mapR]; [discriminate|].
  destruct (f x) as [y|e'] eqn:Hy.
  - destruct (mapR f l) as [ys|e'']; [discriminate|].
    intros [= <-]. destruct IH as (x' & Hin & Hx'); auto.
    exists x'. split; [now right | assumption].
  - intros [= <-]. exists x. split; [now left | assumption].
Qed.

(** X9.  [list_resources] never changes the state.  When it returns, it
    returns one resource for each entry of the store, in the order of the
    store, made of the validated key, the name [Jina Markdown: <key>], the
    description with the fetch time and the token count of the entry, and
    the MIME type [text/markdown]; when it raises, it raises what the
    validation of one of the keys raised. *)
Theorem X9_list_resources_mirrors_the_store w st :
  snd (list_resources w st) = st
  /\ (forall rs,
        fst (list_resources w st) = Ok rs ->
        Forall2
          (fun entry r =>
             AnyUrl_validate (fst entry) = Ok (Resource.uri r)
             /\ Resource.name r = "Jina Markdown: " ++ fst entry
             /\ Resource.description r
                = "Fetched at "
                  ++ Datetime.isoformat (MarkdownResource.fetched_at (snd entry))
                  ++ " UTC, ~"
                  ++ Py.str_of_int (MarkdownResource.token_count (snd entry))
                  ++ " tokens"
             /\ Resource.mimeType r = "text/markdown")
          (resource_store st) rs)
  /\ (forall e,
        fst (list_resources w st) = Raise e ->
        exists k, In k (dict_keys (resource_store st)) /\ AnyUrl_validate k = Raise e).
Proof.
  rewrite list_resources_eq. cbn [fst snd].
  split; [reflexivity|]. split.
  - intros rs Hrs. apply mapR_Forall2 in Hrs.
    induction Hrs as [|[k res] r d rs Hr _ IH]; constructor; auto.
    cbn [fst snd]. destruct (AnyUrl_validate k) as [u|]; [|discriminate].
    injection Hr as <-. repeat split.
  - intros e He. apply mapR_Raise in He.
    destruct He as ([k res] & Hin & Hk).
    exists k. split; [apply in_map with (f := fst) in Hin; exact Hin|].
    destruct (AnyUrl_validate k); [discriminate | now injection Hk as ->].
Qed.

End HandlerProperties.

(* ===================================================================== *)
(** * More on the identifier: schemes, plain URLs, trailing slashes       *)
(* ===================================================================== *)

Section IdentifierProperties.
Context {L : Libraries}.

Lemma forallb_str_absent p s c :
  Py.forallb_str p s = true -> p c = false -> Py.contains c s = false.
Proof.
  intros Hs Hc. induction s as [|a s IH]; auto.
  cbn in Hs |- *. apply andb_true_iff in Hs. destruct Hs as [Ha Hs].
  destruct (Ascii.eqb a c) eqn:E; auto.
  apply Ascii.eqb_eq in E. congruence.
Qed.

Lemma replace_absent old new s :
  Py.contains old s = false -> Py.replace old new s = s.
Proof.
  induction s as [|a s IH]; auto.
  cbn. destruct (Ascii.eqb a old); [discriminate|]. intros H. now rewrite IH.
Qed.

Lemma alpha_not_C0 a :
  Py.is_ascii_alpha a = true -> Py.contains a Urllib.C0_CONTROL_OR_SPACE = false.
Proof.
  destruct a as [[] [] [] [] [] [] [] []]; vm_compute; congruence.
Qed.

(** The text after the scheme, once tabs and line breaks are removed. *)
Lemma prepare_scheme s rest :
  is_scheme s = true ->
  fold_left (fun u c => Py.replace c "" u) Urllib.UNSAFE_URL_BYTES_TO_REMOVE
    (Py.lstrip Urllib.C0_CONTROL_OR_SPACE (s ++ String ":" rest))
  = s ++ String ":"
      (fold_left (fun u c => Py.replace c "" u) Urllib.UNSAFE_URL_BYTES_TO_REMOVE rest).
Proof.
  intros Hs. destruct s as [|a s]; [discriminate|].
  cbn [is_scheme] in Hs. apply andb_true_iff in Hs. destruct Hs as [Ha Hs].
  cbn [append Py.lstrip]. rewrite (alpha_not_C0 a Ha).
  change (String a (s ++ String ":" rest)) with (String a s ++ String ":" rest).
  cbn [fold_left Urllib.UNSAFE_URL_BYTES_TO_REMOVE].
  rewrite !replace_app.
  rewrite !(replace_absent _ _ (String a s))
    by (eapply forallb_str_absent; [exact Hs | reflexivity]).
  reflexivity.
Qed.

Lemma split_scheme_scheme s rest :
  is_scheme s = true ->
  Urllib.split_scheme (s ++ String ":" rest) = (Py.lower s, rest).
Proof.
  intros Hs. unfold Urllib.split_scheme.
  destruct s as [|a s]; [discriminate|].
  cbn [is_scheme] in Hs. apply andb_true_iff in Hs. destruct Hs as [Ha Hs].
  assert (Hc : Py.index_of ":" (String a s) = None)
    by (apply index_of_None; eapply forallb_str_absent; [exact Hs | reflexivity]).
  rewrite find_0, index_of_app, Hc. cbn [Py.index_of].
  change (Ascii.eqb ":" ":") with true. cbv iota.
  replace (Z.of_nat (String.length (String a s) + 0) + 1)
    with (Z.of_nat (String.length (String a s) + 1)) by lia.
  rewrite slice_to_nat, slice_from_nat, take_app_ge, drop_app_ge.
  cbn [Py.take Py.drop]. rewrite app_empty_r.
  cbn [append]. rewrite Ha, Hs.
  replace (Z.of_nat (String.length (String a s) + 0) >? 0) with true
    by (symmetry; apply Z.gtb_lt; cbn [String.length]; lia).
  reflexivity.
Qed.

(** Two URLs that differ by their scheme only are split alike. *)
Lemma urlsplit_two_schemes s1 s2 rest :
  is_scheme s1 = true -> is_scheme s2 = true ->
  match Urllib.urlsplit (s1 ++ String ":" rest),
        Urllib.urlsplit (s2 ++ String ":" rest) with
  | Ok r, Ok r' =>
      Urllib.s_scheme r = Py.lower s1 /\ Urllib.s_scheme r' = Py.lower s2
      /\ Urllib.s_netloc r' = Urllib.s_netloc r
      /\ Urllib.s_path r' = Urllib.s_path r
  | Raise e, Raise e' => e' = e
  | _, _ => False
  end.
Proof.
  intros H1 H2. unfold Urllib.urlsplit. cbv zeta.
  rewrite (prepare_scheme s1 rest H1), (prepare_scheme s2 rest H2).
  rewrite (split_scheme_scheme s1 _ H1), (split_scheme_scheme s2 _ H2).
  destruct (Urllib.split_authority _) as [[netloc u]|e]; cbn [bindR]; [|reflexivity].
  rewrite !urlsplit_tail.
  destruct (Urllib.checknetloc netloc); [|reflexivity].
  cbv zeta. cbn [Urllib.s_scheme Urllib.s_netloc Urllib.s_path]. auto.
Qed.

(** X10.  The identifier does not tell schemes apart: two URLs that differ
    by their scheme only (as [http] and [https]), both schemes among those
    with path parameters or both not, have the same identifier, or fail to
    parse alike. *)
Theorem X10_identifier_ignores_the_scheme s1 s2 rest :
  is_scheme s1 = true ->
  is_scheme s2 = true ->
  takes_params (Py.lower s1) = takes_params (Py.lower s2) ->
  normalize_uri (s1 ++ ":" ++ rest) = normalize_uri (s2 ++ ":" ++ rest).
Proof.
  intros H1 H2 Hp.
  pose proof (urlsplit_two_schemes s1 s2 rest H1 H2) as H.
  unfold normalize_uri, Urllib.urlparse.
  change (":" ++ rest) with (String ":" rest).
  destruct (Urllib.urlsplit (s1 ++ String ":" rest)) as [[sch nl pa qu fr]|e],
           (Urllib.urlsplit (s2 ++ String ":" rest)) as [[sch' nl' pa' qu' fr']|e'];
    try contradiction; cbn [bindR Urllib.s_scheme Urllib.s_netloc Urllib.s_path] in *.
  - destruct H as (-> & -> & -> & ->).
    unfold takes_params in Hp. rewrite Hp.
    destruct (if existsb (String.eqb (Py.lower s2)) Urllib.uses_params
                 && Py.contains ";" pa
              then Urllib.splitparams pa else (pa, "")) as [pa1 params].
    reflexivity.
  - now subst.
Qed.

Lemma isascii_lstrip cs s : Py.isascii s = true -> Py.isascii (Py.lstrip cs s) = true.
Proof.
  induction s as [|a s IH]; auto. cbn [Py.lstrip].
  destruct (Py.contains a cs); auto.
  intros H. cbn in H. apply andb_true_iff in H. tauto.
Qed.

Lemma isascii_remove c s :
  Py.isascii s = true -> Py.isascii (Py.replace c "" s) = true.
Proof.
  induction s as [|a s IH]; auto. cbn [Py.replace Py.isascii].
  intros H. apply andb_true_iff in H. destruct H as [Ha Hs].
  destruct (Ascii.eqb a c); cbn [append Py.isascii]; auto.
  now rewrite Ha, IH.
Qed.

Lemma isascii_drop k s : Py.isascii s = true -> Py.isascii (Py.drop k s) = true.
Proof.
  revert s. induction k as [|k IH]; intros [|a s]; auto.
  cbn [Py.drop Py.isascii]. intros H. apply andb_true_iff in H. apply IH. tauto.
Qed.

Lemma isascii_take k s : Py.isascii s = true -> Py.isascii (Py.take k s) = true.
Proof.
  revert s. induction k as [|k IH]; intros [|a s]; auto.
  cbn [Py.take Py.isascii]. intros H. apply andb_true_iff in H.
  destruct H as [-> H]. now rewrite IH.
Qed.

Lemma contains_take c k s :
  Py.contains c s = false -> Py.contains c (Py.take k s) = false.
Proof.
  revert s. induction k as [|k IH]; intros [|a s]; auto.
  cbn [Py.take Py.contains]. destruct (Ascii.eqb a c); auto.
Qed.

(** What is left after the scheme is an end of the text. *)
Lemma split_scheme_snd u : exists n, snd (Urllib.split_scheme u) = Py.drop n u.
Proof.
  unfold Urllib.split_scheme. rewrite find_0.
  destruct (Py.index_of ":" u) as [k|].
  - destruct (_ && _ && _); cbn [snd]; [|now exists O].
    exists (S k). replace (Z.of_nat k + 1) with (Z.of_nat (S k)) by lia.
    apply slice_from_nat.
  - change (-1 >? 0) with false. cbn [andb snd]. now exists O.
Qed.

(** Without brackets the netloc is accepted as it is cut. *)
Lemma split_authority_plain u :
  Py.contains "[" u = false -> Py.contains "]" u = false ->
  exists netloc rest,
    Urllib.split_authority u = Ok (netloc, rest)
    /\ (Py.isascii u = true -> Py.isascii netloc = true).
Proof.
  intros Ho Hc. unfold Urllib.split_authority.
  change 2 with (Z.of_nat 2). rewrite slice_to_nat.
  destruct (String.eqb (Py.take 2 u) "//") eqn:E; [|exists "", u; auto].
  destruct u as [|a [|b v]];
    [discriminate | cbn in E; destruct (Ascii.eqb a "/"); discriminate |].
  change (Z.of_nat 2) with 2. rewrite splitnetloc_2.
  cbn [Py.contains] in Ho, Hc.
  destruct (Ascii.eqb a "["), (Ascii.eqb b "["), (Ascii.eqb a "]"), (Ascii.eqb b "]");
    try discriminate.
  rewrite !(contains_take "[" _ v Ho), !(contains_take "]" _ v Hc).
  cbn [andb orb negb bindR].
  eexists _, _. split; [reflexivity|].
  intros Hasc. cbn [Py.isascii] in Hasc.
  apply andb_true_iff in Hasc. destruct Hasc as [_ Hasc].
  apply andb_true_iff in Hasc. destruct Hasc as [_ Hasc].
  now apply isascii_take.
Qed.

(** X11.  [normalize_uri] returns for every ASCII URL without square
    brackets: the only URLs it can fail on have a bracket or a non-ASCII
    character. *)
Theorem X11_plain_urls_always_have_an_identifier url :
  Py.isascii url = true ->
  Py.contains "[" url = false ->
  Py.contains "]" url = false ->
  exists k, normalize_uri url = Ok k.
Proof.
  intros Hasc Ho Hc.
  assert (Hsplit : exists r, Urllib.urlsplit url = Ok r).
  { unfold Urllib.urlsplit. cbv zeta.
    pose proof (prepare_clean "[" url Ho) as Ho1.
    pose proof (prepare_clean "]" url Hc) as Hc1.
    assert (Hasc1 : Py.isascii
              (fold_left (fun u c => Py.replace c "" u) Urllib.UNSAFE_URL_BYTES_TO_REMOVE
                 (Py.lstrip Urllib.C0_CONTROL_OR_SPACE url)) = true).
    { cbn [fold_left Urllib.UNSAFE_URL_BYTES_TO_REMOVE].
      now do 3 apply isascii_remove; apply isascii_lstrip. }
    set (u1 := fold_left _ _ _) in *.
    destruct (split_scheme_snd u1) as [n Hn].
    destruct (Urllib.split_scheme u1) as [scheme u2]. cbn [snd] in Hn. subst u2.
    destruct (split_authority_plain (Py.drop n u1)) as (netloc & rest & -> & Hnl);
      [now apply contains_drop | now apply contains_drop |].
    cbn [bindR]. rewrite urlsplit_tail.
    unfold Urllib.checknetloc.
    rewrite (Hnl (isascii_drop n u1 Hasc1)), orb_true_r. eauto. }
  destruct Hsplit as [[sch nl pa qu fr] Hr].
  unfold normalize_uri, Urllib.urlparse. rewrite Hr. cbn [bindR].
  destruct (if existsb (String.eqb sch) Urllib.uses_params && Py.contains ";" pa
            then Urllib.splitparams pa else (pa, "")) as [pa1 params].
  cbn [bindR]. eauto.
Qed.

Lemma split_scheme_slash b :
  Urllib.split_scheme (b ++ "/")
  = (fst (Urllib.split_scheme b), snd (Urllib.split_scheme b) ++ "/").
Proof.
  unfold Urllib.split_scheme. rewrite !find_0, index_of_app.
  destruct (Py.index_of ":" b) as [k|] eqn:Hk.
  - assert (Hlt := index_of_lt _ _ _ Hk).
    replace (Z.of_nat k + 1) with (Z.of_nat (S k)) by lia.
    rewrite !slice_to_nat, !slice_from_nat.
    rewrite take_app_le, drop_app_le by lia.
    destruct b as [|a b]; [simpl in Hlt; lia|]. cbn [append].
    now destruct (_ && _ && _).
  - cbn [Py.index_of]. change (Ascii.eqb "/" ":") with false. cbv iota.
    change (-1 >? 0) with false. reflexivity.
Qed.

Lemma netloc_length_slash v : netloc_length (v ++ "/") = netloc_length v.
Proof. induction v as [|a v IH]; simpl; auto. now rewrite IH. Qed.

(** A slash added at the end stays out of the netloc. *)
Lemma split_authority_slash b :
  match Urllib.split_authority b, Urllib.split_authority (b ++ "/") with
  | Ok (netloc, rest), Ok (netloc', rest') =>
      netloc' = netloc
      /\ (rest' = rest ++ "/" \/ (rest = "/" /\ rest' = ""))
      /\ exists n, rest = Py.drop n b
  | Raise e, Raise e' => e' = e
  | _, _ => False
  end.
Proof.
  unfold Urllib.split_authority.
  change 2 with (Z.of_nat 2). rewrite !slice_to_nat.
  destruct b as [|a [|a' v]].
  - cbn. repeat split; auto. now exists O.
  - cbn [append Py.take]. cbn [String.eqb].
    destruct (Ascii.eqb a "/") eqn:Ea; cbn [String.eqb].
    + apply Ascii.eqb_eq in Ea. subst a.
      change (Z.of_nat 2) with 2. rewrite splitnetloc_2. cbn.
      repeat split; auto. now exists O.
    + repeat split; auto. now exists O.
  - cbn [append Py.take].
    destruct (String.eqb (String a (String a' "")) "//") eqn:E.
    + change (Z.of_nat 2) with 2. rewrite !splitnetloc_2.
      rewrite netloc_length_slash.
      pose proof (netloc_length_le v) as Hle.
      rewrite take_app_le, drop_app_le by assumption.
      set (netloc := Py.take (netloc_length v) v).
      destruct ((Py.contains "[" netloc && negb (Py.contains "]" netloc))
                || (Py.contains "]" netloc && negb (Py.contains "[" netloc))); auto.
      destruct (if Py.contains "[" netloc && Py.contains "]" netloc
                then check_bracketed_netloc netloc else Ok tt); cbn [bindR]; auto.
      repeat split; auto. now exists (S (S (netloc_length v))).
    + repeat split; auto. now exists O.
Qed.

Lemma rstrip_slash s : Py.rstrip "/" (s ++ "/") = Py.rstrip "/" s.
Proof. now rewrite rstrip_app_char. Qed.

(** A slash added to a URL without query string, fragment or parameters
    changes the path by a trailing slash only. *)
Lemma urlsplit_slash u :
  Py.contains "?" u = false -> Py.contains "#" u = false -> Py.contains ";" u = false ->
  match Urllib.urlsplit u, Urllib.urlsplit (u ++ "/") with
  | Ok r, Ok r' =>
      Urllib.s_scheme r' = Urllib.s_scheme r
      /\ Urllib.s_netloc r' = Urllib.s_netloc r
      /\ Py.contains ";" (Urllib.s_path r) = false
      /\ Py.contains ";" (Urllib.s_path r') = false
      /\ Py.rstrip "/" (Urllib.s_path r') = Py.rstrip "/" (Urllib.s_path r)
  | Raise e, Raise e' => e' = e
  | _, _ => False
  end.
Proof.
  intros Hq Hh Hs. unfold Urllib.urlsplit. cbv zeta.
  assert (Hprep :
    fold_left (fun u c => Py.replace c "" u) Urllib.UNSAFE_URL_BYTES_TO_REMOVE
      (Py.lstrip Urllib.C0_CONTROL_OR_SPACE (u ++ "/"))
    = fold_left (fun u c => Py.replace c "" u) Urllib.UNSAFE_URL_BYTES_TO_REMOVE
        (Py.lstrip Urllib.C0_CONTROL_OR_SPACE u) ++ "/").
  { rewrite lstrip_app by reflexivity.
    cbn [fold_left Urllib.UNSAFE_URL_BYTES_TO_REMOVE].
    now rewrite !replace_app. }
  rewrite Hprep.
  pose proof (prepare_clean "?" u Hq) as Hq1.
  pose proof (prepare_clean "#" u Hh) as Hh1.
  pose proof (prepare_clean ";" u Hs) as Hs1.
  set (u1 := fold_left _ _ (Py.lstrip _ u)) in *.
  rewrite split_scheme_slash.
  destruct (split_scheme_snd u1) as [n Hn].
  destruct (Urllib.split_scheme u1) as [scheme u2]. cbn [fst snd] in *. subst u2.
  pose proof (split_authority_slash (Py.drop n u1)) as Ha.
  destruct (Urllib.split_authority (Py.drop n u1)) as [[netloc rest]|e],
           (Urllib.split_authority (Py.drop n u1 ++ "/")) as [[netloc' rest']|e'];
    try contradiction; cbn [bindR]; [|assumption].
  destruct Ha as (-> & Hrest & m & ->).
  assert (Hclean : forall c, Py.contains c u1 = false ->
                             Py.contains c (Py.drop m (Py.drop n u1)) = false)
    by (intros c Hc; now do 2 apply contains_drop).
  rewrite !urlsplit_tail.
  destruct (Urllib.checknetloc netloc); [|reflexivity].
  cbv zeta. cbn [Urllib.s_scheme Urllib.s_netloc Urllib.s_path].
  rewrite (path_of_clean (Py.drop m (Py.drop n u1))) by auto.
  destruct Hrest as [->|[Hone ->]].
  - rewrite path_of_clean
      by (rewrite contains_app; rewrite Hclean by assumption; reflexivity).
    rewrite contains_app, rstrip_slash, Hclean by assumption. auto.
  - rewrite Hone. cbn. auto.
Qed.

(** X12.  A trailing slash does not change the identifier of a URL that has
    no query string, no fragment and no [';']: with and without the slash,
    it is cached under one entry. *)
Theorem X12_identifier_ignores_a_trailing_slash url :
  Py.contains "?" url = false ->
  Py.contains "#" url = false ->
  Py.contains ";" url = false ->
  normalize_uri (url ++ "/") = normalize_uri url.
Proof.
  intros Hq Hh Hs. pose proof (urlsplit_slash url Hq Hh Hs) as H.
  unfold normalize_uri, Urllib.urlparse.
  destruct (Urllib.urlsplit url) as [[sch nl pa qu fr]|e],
           (Urllib.urlsplit (url ++ "/")) as [[sch' nl' pa' qu' fr']|e'];
    try contradiction; cbn [bindR Urllib.s_scheme Urllib.s_netloc Urllib.s_path] in *.
  - destruct H as (-> & -> & Hpa & Hpa' & Hstrip).
    rewrite Hpa, Hpa', !andb_false_r.
    cbn [bindR Urllib.netloc Urllib.path]. now rewrite Hstrip.
  - now subst.
Qed.

End IdentifierProperties.

(* ===================================================================== *)
(** * How upserts compose, and the token estimate                         *)
(* ===================================================================== *)

Section Composition.
Context {L : Libraries}.

Lemma dict_set_set {V} (d : Dict V) k v1 v2 :
  dict_set k v2 (dict_set k v1 d) = dict_set k v2 d.
Proof.
  induction d as [|[k' v'] d IH]; cbn [dict_set].
  - now rewrite String.eqb_refl.
  - destruct (String.eqb k' k) eqn:E; cbn [dict_set]; rewrite E; [reflexivity|].
    now rewrite IH.
Qed.

(** X13.  The last write wins, and alone: after two successful upserts of
    URLs with the same identifier, the store is the store the second upsert
    would have left had the first never happened. *)
Theorem X13_last_upsert_wins u1 u2 w1 w2 st0 out1 st1 out2 st2 :
  normalize_uri u1 = normalize_uri u2 ->
  fetch_and_store_url u1 w1 st0 = (Ok out1, st1) ->
  fetch_and_store_url u2 w2 st1 = (Ok out2, st2) ->
  exists out st2',
    fetch_and_store_url u2 w2 st0 = (Ok out, st2')
    /\ resource_store st2' = resource_store st2.
Proof.
  intros Hn H1 H2.
  apply fetch_and_store_url_ok in H1, H2.
  destruct H1 as (sc1 & md1 & tc1 & uri1 & _ & _ & _ & Hn1 & _ & ->).
  destruct H2 as (sc2 & md2 & tc2 & uri2 & Hg2 & Hsc2 & Htc2 & Hn2 & _ & ->).
  assert (uri1 = uri2) by congruence. subst uri2.
  destruct (fetch_and_store_url_run u2 w2 st0 sc2 md2 tc2 uri1 Hg2 Hsc2 Htc2 Hn2)
    as (out & st2' & H).
  exists out, st2'. split; [assumption|].
  apply fetch_and_store_url_ok in H.
  destruct H as (sc & md & tc & uri & Hg & _ & Htc & Hu & _ & ->).
  rewrite Hg2 in Hg. injection Hg as <- <-.
  assert (tc = tc2) by congruence. assert (uri = uri1) by congruence. subst.
  cbn [resource_store]. now rewrite dict_set_set.
Qed.

(** X14.  Upserts of URLs with different identifiers do not disturb each
    other: after both, in either order, every identifier has the same
    entry. *)
Theorem X14_upserts_of_distinct_identifiers_commute
  u1 u2 w1 w2 st0 o1 sa o2 sab o2' sb o1' sba :
  normalize_uri u1 <> normalize_uri u2 ->
  fetch_and_store_url u1 w1 st0 = (Ok o1, sa) ->
  fetch_and_store_url u2 w2 sa = (Ok o2, sab) ->
  fetch_and_store_url u2 w2 st0 = (Ok o2', sb) ->
  fetch_and_store_url u1 w1 sb = (Ok o1', sba) ->
  forall k, dict_get k (resource_store sab) = dict_get k (resource_store sba).
Proof.
  intros Hne H1 H2 H3 H4 k.
  apply fetch_and_store_url_ok in H1, H2, H3, H4.
  destruct H1 as (sc1 & md1 & tc1 & k1 & Hg1 & _ & Ht1 & Hn1 & _ & ->).
  destruct H2 as (sc2 & md2 & tc2 & k2 & Hg2 & _ & Ht2 & Hn2 & _ & ->).
  destruct H3 as (sc3 & md3 & tc3 & k3 & Hg3 & _ & Ht3 & Hn3 & _ & ->).
  destruct H4 as (sc4 & md4 & tc4 & k4 & Hg4 & _ & Ht4 & Hn4 & _ & ->).
  rewrite Hg2 in Hg3. injection Hg3 as <- <-.
  rewrite Hg1 in Hg4. injection Hg4 as <- <-.
  assert (tc3 = tc2) by congruence. assert (tc4 = tc1) by congruence.
  assert (k3 = k2) by congruence. assert (k4 = k1) by congruence. subst.
  assert (Hk : k1 <> k2) by congruence.
  cbn [resource_store].
  destruct (string_dec k k2) as [->|Hk2].
  - rewrite dict_get_set_same.
    rewrite dict_get_set_other by congruence. now rewrite dict_get_set_same.
  - rewrite dict_get_set_other by assumption.
    destruct (string_dec k k1) as [->|Hk1].
    + now rewrite !dict_get_set_same.
    + now rewrite !dict_get_set_other by assumption.
Qed.

(** X15.  Which encoding [estimate_tokens] counts with.  The estimate is
    the number of tokens of the text under the encoding of the model when
    [encoding_for_model] returns one, and under [cl100k_base] exactly when
    [encoding_for_model] raises a [KeyError]: it returns [n] if and only if
    one of these two encodings, chosen so, encodes the text in [n] tokens.
    It raises [e] if and only if [encoding_for_model] raised [e] and [e] is
    no [KeyError], or [get_encoding] raised [e] after a [KeyError], or the
    chosen encoding raised [e] on the text.  An estimate is never
    negative. *)
Theorem X15_estimate_tokens_fallback text model :
  (forall n,
     estimate_tokens text model = Ok n
     <-> exists enc tokens,
           (encoding_for_model model = Ok enc
            \/ ((exists m, encoding_for_model model = Raise (KeyError m))
                /\ get_encoding "cl100k_base" = Ok enc))
           /\ encode enc text = Ok tokens
           /\ n = Z.of_nat (List.length tokens))
  /\ (forall e,
        estimate_tokens text model = Raise e
        <-> (encoding_for_model model = Raise e /\ forall m, e <> KeyError m)
            \/ ((exists m, encoding_for_model model = Raise (KeyError m))
                /\ get_encoding "cl100k_base" = Raise e)
            \/ (exists enc,
                  (encoding_for_model model = Ok enc
                   \/ ((exists m, encoding_for_model model = Raise (KeyError m))
                       /\ get_encoding "cl100k_base" = Ok enc))
                  /\ encode enc text = Raise e))
  /\ (forall n, estimate_tokens text model = Ok n -> 0 <= n).
Proof.
  assert (Hcount : forall enc r,
    (match encode enc text with
     | Ok tokens => Ok (Z.of_nat (List.length tokens))
     | Raise e => Raise e
     end = r)
    <-> match r with
        | Ok n => exists tokens, encode enc text = Ok tokens
                                 /\ n = Z.of_nat (List.length tokens)
        | Raise e => encode enc text = Raise e
        end).
  { intros enc r. destruct (encode enc text) as [tokens|e0], r as [n|e]; split;
      try discriminate; try congruence.
    - intros [= <-]. eauto.
    - intros (t & [= <-] & ->). reflexivity.
    - intros (t & [=] & _). }
  unfold estimate_tokens.
  destruct (encoding_for_model model) as [enc|e0] eqn:Hm; cbn [bindR].
  - split; [|split].
    + intros n. rewrite (Hcount enc (Ok n)). split.
      * intros (tokens & Ht & ->). exists enc, tokens. auto.
      * intros (enc' & tokens & [[= <-]|((m & [=]) & _)] & Ht & ->). eauto.
    + intros e. rewrite (Hcount enc (Raise e)). split.
      * intros He. right. right. exists enc. auto.
      * intros [[[=] _]|[((m & [=]) & _)|(enc' & [[= <-]|((m & [=]) & _)] & He)]].
        assumption.
    + intros n Hn. apply (Hcount enc (Ok n)) in Hn.
      destruct Hn as (tokens & _ & ->). lia.
  - assert (Hkey : (exists m, e0 = KeyError m) \/ forall m, e0 <> KeyError m).
    { destruct e0; try (right; intros m; discriminate). left. eauto. }
    destruct Hkey as [(m0 & ->)|Hno].
    + destruct (get_encoding "cl100k_base") as [enc|e1] eqn:Hg; cbn [bindR].
      * split; [|split].
        -- intros n. rewrite (Hcount enc (Ok n)). split.
           ++ intros (tokens & Ht & ->). exists enc, tokens.
              split; [right; split; [eauto | reflexivity]|]. auto.
           ++ intros (enc' & tokens & [[=]|(_ & [= <-])] & Ht & ->). eauto.
        -- intros e. rewrite (Hcount enc (Raise e)). split.
           ++ intros He. right. right. exists enc.
              split; [right; split; [eauto | reflexivity]|]. assumption.
           ++ intros [[[= <-] Hn]|[(_ & [=])|(enc' & [[=]|(_ & [= <-])] & He)]].
              ** exfalso. now apply (Hn m0).
              ** assumption.
        -- intros n Hn. apply (Hcount enc (Ok n)) in Hn.
           destruct Hn as (tokens & _ & ->). lia.
      * split; [|split].
        -- intros n. split; [discriminate|].
           intros (enc' & tokens & [[=]|(_ & [=])] & _).
        -- intros e. split.
           ++ intros [= <-]. right. left. split; [eauto | reflexivity].
           ++ intros [[[= <-] Hn]|[(_ & [= <-])|(enc' & [[=]|(_ & [=])] & _)]].
              ** exfalso. now apply (Hn m0).
              ** reflexivity.
        -- discriminate.
    + destruct e0 as [msg|key|msg|status|what|what];
        try (exfalso; eapply Hno; reflexivity); cbn [bindR];
        (split; [|split];
         [ intros n; split; [discriminate|];
           intros (enc' & tokens & [[=]|((m & [=]) & _)] & _)
         | intros e; split;
           [ intros [= <-]; left; split; [reflexivity | assumption]
           | intros [[[= <-] _]|[((m & [=]) & _)|(enc' & [[=]|((m & [=]) & _)] & _)]];
             reflexivity ]
         | discriminate ]).
Qed.

End Composition.

(* ===================================================================== *)
(** * The further properties on concrete runs                             *)
(* ===================================================================== *)

(** The tokenizer refuses the text received while an entry is stored: the
    upsert raises what the tokenizer raised, and the entry stays. *)
Lemma X1_witness :
  fst (@fetch_and_store_url picky_libraries docs_url
         (world_of "<|endoftext|>" later) state_docs)
    = Raise (ValueError "disallowed special token")
  /\ resource_store
       (snd (@fetch_and_store_url picky_libraries docs_url
               (world_of "<|endoftext|>" later) state_docs))
     = resource_store state_docs
  /\ dict_get docs_key
       (resource_store
          (snd (@fetch_and_store_url picky_libraries docs_url
                  (world_of "<|endoftext|>" later) state_docs)))
     = Some (entry_hi noon).
Proof.
  destruct (@X1_upsert_is_all_or_nothing picky_libraries docs_url
              (world_of "<|endoftext|>" later) state_docs
              (ValueError "disallowed special token")) as [Hiff Hstore].
  assert (Hraise : fst (@fetch_and_store_url picky_libraries docs_url
                          (world_of "<|endoftext|>" later) state_docs)
                   = Raise (ValueError "disallowed special token")).
  { apply Hiff. right. right. left. exists 200, "<|endoftext|>".
    split; [reflexivity|]. split; [lia|]. vm_compute. reflexivity. }
  split; [exact Hraise|].
  destruct (Hstore Hraise) as [Hs Hk].
  split; [exact Hs|]. rewrite Hk. vm_compute. reflexivity.
Defined.

Lemma X2_witness :
  exists out st',
    @fetch_and_store_url toy_libraries "https://example.org/" (world_of "two" later)
      state_docs = (Ok out, st')
    /\ dict_get docs_key (resource_store st') = Some (entry_hi noon)
    /\ dict_keys (resource_store st') = [docs_key; "jinamd://example_org_"].
Proof.
  destruct (@fetch_and_store_url_run toy_libraries "https://example.org/"
              (world_of "two" later) state_docs 200 "two" 3 "jinamd://example_org_")
    as (out & st' & H); try reflexivity; try lia.
  exists out, st'. split; [exact H|].
  destruct (@X2_upsert_touches_one_identifier toy_libraries _ _ _ _ _ H)
    as (uri & Hn & Hother & Hkeys).
  assert (E : Ok uri = Ok "jinamd://example_org_" :> Result string)
    by (rewrite <- Hn; vm_compute; reflexivity).
  injection E as ->. split.
  - rewrite Hother by discriminate. reflexivity.
  - rewrite Hkeys. reflexivity.
Defined.

Lemma X3_witness :
  @fetch_and_store_url toy_libraries docs_url (world_of "# Hi" noon) initial_state
    = (Ok [item_hi noon true], state_docs)
  /\ read_resource docs_id world_down state_docs
     = (Ok ("# Hi" ++ nl ++ nl ++ "---" ++ nl
            ++ "_Estimated tokens_: 4" ++ nl
            ++ "_Content hash_: `38c64a17e33e...`" ++ nl
            ++ "_Fetched at_: 2025-03-09T12:00:00 UTC"),
        state_docs).
Proof.
  assert (H : @fetch_and_store_url toy_libraries docs_url (world_of "# Hi" noon)
                initial_state = (Ok [item_hi noon true], state_docs))
    by (vm_compute; reflexivity).
  split; [exact H|].
  destruct (@X3_upsert_result_matches_store_and_read toy_libraries _ _ _ _ _ H)
    as (item & Eout & _ & _ & _ & _ & _ & _ & Hread).
  injection Eout as <-.
  rewrite (Hread docs_id world_down eq_refl eq_refl). vm_compute. reflexivity.
Defined.

Lemma X4_witness :
  @normalize_uri toy_libraries "http://localhost:8000/a.b/c/"
    = Ok "jinamd://localhost:8000_a_b_c"
  /\ exists key,
       "jinamd://localhost:8000_a_b_c" = "jinamd://" ++ key
       /\ Py.contains "/" key = false /\ Py.contains "." key = false
       /\ (0 < String.length key)%nat.
Proof.
  assert (H : @normalize_uri toy_libraries "http://localhost:8000/a.b/c/"
              = Ok "jinamd://localhost:8000_a_b_c") by (vm_compute; reflexivity).
  split; [exact H|].
  destruct (@X4_identifier_shape toy_libraries _ _ H)
    as (key & parsed & E & _ & Hlen & Hs & Hd & _).
  exists key. auto.
Defined.

Lemma X5_witness :
  dict_get docs_key (resource_store state_docs) = Some (entry_hi noon)
  /\ exists res',
       dict_get docs_key
         (resource_store
            (@run toy_libraries
               [ (FetchAndStore "https://example.org/", world_of "two" later);
                 (ReadResource docs_id, world_down);
                 (FetchAndStore docs_url, world_down);
                 (CallTool "fetch_markdown" None, world_down) ]
               state_docs))
       = Some res'.
Proof.
  split; [reflexivity|].
  apply (@X5_entries_are_never_removed toy_libraries _ state_docs docs_key
           (entry_hi noon) eq_refl).
Defined.

Lemma X6_witness :
  @reachable toy_libraries state_docs
  /\ In (docs_key, entry_hi noon) (resource_store state_docs)
  /\ @estimate_tokens toy_libraries "# Hi" "gpt-4" = Ok 4
  /\ exists url,
       @normalize_uri toy_libraries url = Ok docs_key
       /\ In ("https://r.jina.ai/" ++ url) (outbound state_docs).
Proof.
  assert (Hr : @reachable toy_libraries state_docs).
  { change state_docs
      with (@handle toy_libraries (FetchAndStore docs_url) (world_of "# Hi" noon)
              initial_state).
    apply reachable_step, reachable_init. }
  assert (Hin : In (docs_key, entry_hi noon) (resource_store state_docs))
    by (left; reflexivity).
  destruct (@X6_entries_come_from_fetches toy_libraries _ _ _ Hr Hin)
    as (Hurl & Htok & _).
  split; [exact Hr|]. split; [exact Hin|]. split; [exact Htok | exact Hurl].
Defined.

Lemma X8_witness :
  [("uri", JString docs_url)] <> []
  /\ (exists msg,
        @call_tool toy_libraries "fetch_markdown" (Some [("uri", JString docs_url)])
          (world_of "# Hi" later) state_docs
        = (Raise (ValidationError msg), state_docs))
  /\ @call_tool toy_libraries "fetch_markdown" (Some [("url", JString docs_url)])
       (world_of "# Hi" later) state_docs
     = @fetch_and_store_url toy_libraries docs_url (world_of "# Hi" later) state_docs.
Proof.
  split; [discriminate|]. split.
  - destruct (@X8_call_tool_validates_then_upserts toy_libraries
                [("uri", JString docs_url)] (world_of "# Hi" later) state_docs)
      as (_ & _ & H & _); [discriminate|].
    apply H. reflexivity.
  - destruct (@X8_call_tool_validates_then_upserts toy_libraries
                [("url", JString docs_url)] (world_of "# Hi" later) state_docs)
      as (_ & H & _); [discriminate|].
    apply (H (AnyUrl.Make "https" docs_url)). reflexivity.
Defined.

Lemma X9_witness :
  snd (@list_resources toy_libraries world_down state_docs_later) = state_docs_later
  /\ Forall2
       (fun entry r =>
          @AnyUrl_validate toy_libraries (fst entry) = Ok (Resource.uri r)
          /\ Resource.name r = "Jina Markdown: " ++ fst entry
          /\ Resource.description r
             = "Fetched at "
               ++ Datetime.isoformat (MarkdownResource.fetched_at (snd entry))
               ++ " UTC, ~"
               ++ Py.str_of_int (MarkdownResource.token_count (snd entry))
               ++ " tokens"
          /\ Resource.mimeType r = "text/markdown")
       (resource_store state_docs_later)
       [ Resource.Make docs_id "Jina Markdown: jinamd://example_com_docs"
           "Fetched at 2025-03-09T12:00:05.250000 UTC, ~4 tokens" "text/markdown" ].
Proof.
  destruct (@X9_list_resources_mirrors_the_store toy_libraries world_down
              state_docs_later) as (Hs & Hok & _).
  split; [exact Hs|]. apply Hok. vm_compute. reflexivity.
Defined.

Lemma X10_witness :
  is_scheme "http" = true /\ is_scheme "HTTPS" = true
  /\ takes_params (Py.lower "http") = takes_params (Py.lower "HTTPS")
  /\ @normalize_uri toy_libraries ("http" ++ ":" ++ "//example.com/docs/")
     = @normalize_uri toy_libraries ("HTTPS" ++ ":" ++ "//example.com/docs/").
Proof.
  repeat (split; [reflexivity|]).
  apply (@X10_identifier_ignores_the_scheme toy_libraries "http" "HTTPS"
           "//example.com/docs/"); reflexivity.
Defined.

Lemma X11_witness :
  Py.isascii "http://user@example.com:8080/a;b?c#d" = true
  /\ Py.contains "[" "http://user@example.com:8080/a;b?c#d" = false
  /\ Py.contains "]" "http://user@example.com:8080/a;b?c#d" = false
  /\ exists k, @normalize_uri toy_libraries "http://user@example.com:8080/a;b?c#d" = Ok k.
Proof.
  repeat (split; [reflexivity|]).
  apply (@X11_plain_urls_always_have_an_identifier toy_libraries); reflexivity.
Defined.

Lemma X12_witness :
  Py.contains "?" "https://example.com/docs" = false
  /\ Py.contains "#" "https://example.com/docs" = false
  /\ Py.contains ";" "https://example.com/docs" = false
  /\ @normalize_uri toy_libraries ("https://example.com/docs" ++ "/")
     = @normalize_uri toy_libraries "https://example.com/docs".
Proof.
  repeat (split; [reflexivity|]).
  apply (@X12_identifier_ignores_a_trailing_slash toy_libraries); reflexivity.
Defined.

Lemma X13_witness :
  exists out1 st1 out2 st2 out st2',
    @fetch_and_store_url toy_libraries "https://a.com/b.c" (world_of "one" noon)
      state_docs = (Ok out1, st1)
    /\ @fetch_and_store_url toy_libraries "https://a.com/b/c" (world_of "two" later)
         st1 = (Ok out2, st2)
    /\ @fetch_and_store_url toy_libraries "https://a.com/b/c" (world_of "two" later)
         state_docs = (Ok out, st2')
    /\ resource_store st2' = resource_store st2.
Proof.
  destruct (@fetch_and_store_url_run toy_libraries "https://a.com/b.c"
              (world_of "one" noon) state_docs 200 "one" 3 "jinamd://a_com_b_c")
    as (out1 & st1 & H1); try reflexivity; try lia.
  destruct (@fetch_and_store_url_run toy_libraries "https://a.com/b/c"
              (world_of "two" later) st1 200 "two" 3 "jinamd://a_com_b_c")
    as (out2 & st2 & H2); try reflexivity; try lia.
  destruct (@X13_last_upsert_wins toy_libraries "https://a.com/b.c" "https://a.com/b/c"
              _ _ _ _ _ _ _ eq_refl H1 H2) as (out & st2' & H & Hs).
  exists out1, st1, out2, st2, out, st2'. auto.
Defined.

Lemma X14_witness :
  exists o1 sa o2 sab o2' sb o1' sba,
    @fetch_and_store_url toy_libraries "https://a.com/x" (world_of "one" noon)
      initial_state = (Ok o1, sa)
    /\ @fetch_and_store_url toy_libraries "https://b.com/y" (world_of "two" later)
         sa = (Ok o2, sab)
    /\ @fetch_and_store_url toy_libraries "https://b.com/y" (world_of "two" later)
         initial_state = (Ok o2', sb)
    /\ @fetch_and_store_url toy_libraries "https://a.com/x" (world_of "one" noon)
         sb = (Ok o1', sba)
    /\ dict_get "jinamd://a_com_x" (resource_store sab)
       = dict_get "jinamd://a_com_x" (resource_store sba).
Proof.
  destruct (@fetch_and_store_url_run toy_libraries "https://a.com/x"
              (world_of "one" noon) initial_state 200 "one" 3 "jinamd://a_com_x")
    as (o1 & sa & H1); try reflexivity; try lia.
  destruct (@fetch_and_store_url_run toy_libraries "https://b.com/y"
              (world_of "two" later) sa 200 "two" 3 "jinamd://b_com_y")
    as (o2 & sab & H2); try reflexivity; try lia.
  destruct (@fetch_and_store_url_run toy_libraries "https://b.com/y"
              (world_of "two" later) initial_state 200 "two" 3 "jinamd://b_com_y")
    as (o2' & sb & H3); try reflexivity; try lia.
  destruct (@fetch_and_store_url_run toy_libraries "https://a.com/x"
              (world_of "one" noon) sb 200 "one" 3 "jinamd://a_com_x")
    as (o1' & sba & H4); try reflexivity; try lia.
  exists o1, sa, o2, sab, o2', sb, o1', sba.
  repeat (split; [assumption|]).
  eapply (@X14_upserts_of_distinct_identifiers_commute toy_libraries
            "https://a.com/x" "https://b.com/y");
    [ | exact H1 | exact H2 | exact H3 | exact H4 ].
  vm_compute. discriminate.
Defined.

(** With a model the tokenizer knows, the estimate counts with the encoding
    of the model; with one it does not know, with [cl100k_base]; and what
    the chosen encoding raises on the text is raised. *)
Lemma X15_witness :
  @estimate_tokens toy_libraries "# Hi" "gpt-4" = Ok 4
  /\ @encoding_for_model picky_libraries "gpt-4" = Raise (KeyError "gpt-4")
  /\ @estimate_tokens picky_libraries "# Hi" "gpt-4" = Ok 4
  /\ @estimate_tokens picky_libraries "<|endoftext|>" "gpt-4"
     = Raise (ValueError "disallowed special token").
Proof.
  destruct (@X15_estimate_tokens_fallback toy_libraries "# Hi" "gpt-4") as (Hk & _).
  destruct (@X15_estimate_tokens_fallback picky_libraries "# Hi" "gpt-4") as (H & _).
  destruct (@X15_estimate_tokens_fallback picky_libraries "<|endoftext|>" "gpt-4")
    as (_ & H' & _).
  split; [|split; [reflexivity|split]].
  - apply Hk. exists tt, (encode_utf8 "# Hi").
    split; [left; reflexivity|]. split; reflexivity.
  - apply H. exists tt, (encode_utf8 "# Hi").
    split; [right; split; [exists "gpt-4"; reflexivity | reflexivity]|].
    split; reflexivity.
  - apply H'. right. right. exists tt.
    split; [right; split; [exists "gpt-4"; reflexivity | reflexivity]|].
    reflexivity.
Defined.
